(** * WebGL quad demo (src/js/main.js): a shallow embedding and its properties

    The source file holds two variants of one program: a static variant
    (one draw call) and an animated variant (a frame callback that rotates
    a world transform).  Both drive a WebGL context and the gl-matrix
    library.

    Conventions of the embedding.
    - JavaScript numbers are idealised as real numbers ([R]); the
      comparisons, products and trigonometric calls of the source are the
      corresponding operations on [R].
    - A [Float32Array(16)] is a record of sixteen numbers, and lives in a
      heap addressed by reference, because the source updates matrices in
      place and passes the same array to several calls.
    - The WebGL context, [alert] and [requestAnimationFrame] are host
      services.  Every call is appended to an event log; the answers of the
      host (compile and link status, diagnostic logs, binding slots, canvas
      size, treatment of [null] handles) are the fields of a [Host]. *)

From Stdlib Require Import Reals Lra List String Bool Arith Lia ZArith.
Import ListNotations.
Local Open Scope R_scope.
Local Open Scope list_scope.

(** ** Typed arrays of sixteen numbers *)

(** [e0 .. e15] are the array slots [m[0] .. m[15]]; gl-matrix stores a
    matrix column by column, so the fourth column is [e12 .. e15]. *)
Record Mat4 : Type := mkMat4 {
  e0 : R; e1 : R; e2 : R; e3 : R;
  e4 : R; e5 : R; e6 : R; e7 : R;
  e8 : R; e9 : R; e10 : R; e11 : R;
  e12 : R; e13 : R; e14 : R; e15 : R
}.

(** The fourth column of a matrix: its translation part. *)
Definition column3 (m : Mat4) : R * R * R * R := (e12 m, e13 m, e14 m, e15 m).

(** A three-element JavaScript array literal such as [[0, 0, 1]]. *)
Definition Vec3 : Type := (R * R * R)%type.

Module glMatrix.
Definition EPSILON : R := 0.000001.
End glMatrix.

(** ** gl-matrix: the arithmetic of the [mat4] functions

    The source calls [mat4.create], [perspective], [translate], [scale],
    [rotate] and [multiply] of the gl-matrix library, which is not under
    src/.  The spec fixes what they are to the program: column-major 4x4
    matrices, an identity base, a product, a right-multiplication by the
    rotation matrix of an axis and an angle, a translation, a perspective
    matrix.  The definitions below give that meaning with the slot
    expressions of the library's implementation.  Each function reads the
    operand slots it needs before it overwrites them, so a call is one
    store of the computed array into [out] (see [Module mat4]). *)
Module mat4v.

(** Modelled from the spec: [mat4.create] (gl-matrix, not under src/),
    the identity base; a zeroed array with the diagonal set to one. *)
Definition identity : Mat4 :=
  mkMat4 1 0 0 0
         0 1 0 0
         0 0 1 0
         0 0 0 1.

(** Modelled from the spec: [mat4.multiply(out, a, b)] (gl-matrix, not
    under src/), the product of [a] and [b]; the slots written to
    [out]. *)
Definition multiply (a b : Mat4) : Mat4 :=
  let a00 := e0 a in let a01 := e1 a in let a02 := e2 a in let a03 := e3 a in
  let a10 := e4 a in let a11 := e5 a in let a12 := e6 a in let a13 := e7 a in
  let a20 := e8 a in let a21 := e9 a in let a22 := e10 a in let a23 := e11 a in
  let a30 := e12 a in let a31 := e13 a in let a32 := e14 a in let a33 := e15 a in
  let row (b0 b1 b2 b3 : R) :=
    (b0 * a00 + b1 * a10 + b2 * a20 + b3 * a30,
     b0 * a01 + b1 * a11 + b2 * a21 + b3 * a31,
     b0 * a02 + b1 * a12 + b2 * a22 + b3 * a32,
     b0 * a03 + b1 * a13 + b2 * a23 + b3 * a33) in
  let '(o0, o1, o2, o3) := row (e0 b) (e1 b) (e2 b) (e3 b) in
  let '(o4, o5, o6, o7) := row (e4 b) (e5 b) (e6 b) (e7 b) in
  let '(o8, o9, o10, o11) := row (e8 b) (e9 b) (e10 b) (e11 b) in
  let '(o12, o13, o14, o15) := row (e12 b) (e13 b) (e14 b) (e15 b) in
  mkMat4 o0 o1 o2 o3 o4 o5 o6 o7 o8 o9 o10 o11 o12 o13 o14 o15.

(** Modelled from the spec: the rotation matrix of an axis and an
    angle, as gl-matrix (not under src/) builds it: the 3x3 block
    [b00 .. b22] of [mat4.rotate] and [mat4.fromRotation], from a unit
    axis. *)
Definition rotationBlock (x y z rad : R) : R * R * R * (R * R * R) * (R * R * R) :=
  let s := sin rad in
  let c := cos rad in
  let t := 1 - c in
  (x * x * t + c, y * x * t + z * s, z * x * t - y * s,
   (x * y * t - z * s, y * y * t + c, z * y * t + x * s),
   (x * z * t + y * s, y * z * t - x * s, z * z * t + c)).

(** Modelled from the spec: [mat4.rotate(out, a, rad, axis)] (gl-matrix,
    not under src/), which right-multiplies [a] by the rotation matrix
    of the axis and the angle.  [None] is the library's early
    [return null] for an axis shorter than [EPSILON]; otherwise the slots
    of [out].  Slots 12..15 are those of [a] (copied when [a !== out],
    left in place when [a === out]). *)
Definition rotate (a : Mat4) (rad : R) (axis : Vec3) : option Mat4 :=
  let '(x, y, z) := axis in
  let len := sqrt (x * x + y * y + z * z) in
  if Rlt_dec len glMatrix.EPSILON then None
  else
    let len := 1 / len in
    let x := x * len in
    let y := y * len in
    let z := z * len in
    let '(b00, b01, b02, (b10, b11, b12), (b20, b21, b22)) := rotationBlock x y z rad in
    let a00 := e0 a in let a01 := e1 a in let a02 := e2 a in let a03 := e3 a in
    let a10 := e4 a in let a11 := e5 a in let a12 := e6 a in let a13 := e7 a in
    let a20 := e8 a in let a21 := e9 a in let a22 := e10 a in let a23 := e11 a in
    Some (mkMat4
      (a00 * b00 + a10 * b01 + a20 * b02)
      (a01 * b00 + a11 * b01 + a21 * b02)
      (a02 * b00 + a12 * b01 + a22 * b02)
      (a03 * b00 + a13 * b01 + a23 * b02)
      (a00 * b10 + a10 * b11 + a20 * b12)
      (a01 * b10 + a11 * b11 + a21 * b12)
      (a02 * b10 + a12 * b11 + a22 * b12)
      (a03 * b10 + a13 * b11 + a23 * b12)
      (a00 * b20 + a10 * b21 + a20 * b22)
      (a01 * b20 + a11 * b21 + a21 * b22)
      (a02 * b20 + a12 * b21 + a22 * b22)
      (a03 * b20 + a13 * b21 + a23 * b22)
      (e12 a) (e13 a) (e14 a) (e15 a)).

(** Modelled from the spec: [mat4.fromRotation(out, rad, axis)]
    (gl-matrix, not under src/), the rotation matrix itself. *)
Definition fromRotation (rad : R) (axis : Vec3) : option Mat4 :=
  let '(x, y, z) := axis in
  let len := sqrt (x * x + y * y + z * z) in
  if Rlt_dec len glMatrix.EPSILON then None
  else
    let len := 1 / len in
    let x := x * len in
    let y := y * len in
    let z := z * len in
    let '(b00, b01, b02, (b10, b11, b12), (b20, b21, b22)) := rotationBlock x y z rad in
    Some (mkMat4 b00 b01 b02 0
                 b10 b11 b12 0
                 b20 b21 b22 0
                 0 0 0 1).

(** Modelled from the spec: [mat4.translate(out, a, v)] (gl-matrix, not
    under src/), [a] times the translation by [v]. *)
Definition translate (a : Mat4) (v : Vec3) : Mat4 :=
  let '(x, y, z) := v in
  mkMat4 (e0 a) (e1 a) (e2 a) (e3 a)
         (e4 a) (e5 a) (e6 a) (e7 a)
         (e8 a) (e9 a) (e10 a) (e11 a)
         (e0 a * x + e4 a * y + e8 a * z + e12 a)
         (e1 a * x + e5 a * y + e9 a * z + e13 a)
         (e2 a * x + e6 a * y + e10 a * z + e14 a)
         (e3 a * x + e7 a * y + e11 a * z + e15 a).

(** Modelled from the spec: [mat4.scale(out, a, v)] (gl-matrix, not
    under src/), [a] with its first three columns scaled by [v]. *)
Definition scale (a : Mat4) (v : Vec3) : Mat4 :=
  let '(x, y, z) := v in
  mkMat4 (e0 a * x) (e1 a * x) (e2 a * x) (e3 a * x)
         (e4 a * y) (e5 a * y) (e6 a * y) (e7 a * y)
         (e8 a * z) (e9 a * z) (e10 a * z) (e11 a * z)
         (e12 a) (e13 a) (e14 a) (e15 a).

(** Modelled from the spec: [mat4.perspective(out, fovy, aspect, near,
    far)] (gl-matrix, not under src/), the standard perspective matrix,
    for a finite [far]: every slot of [out] is written. *)
Definition perspective (fovy aspect near far : R) : Mat4 :=
  let f := 1 / tan (fovy / 2) in
  let nf := 1 / (near - far) in
  mkMat4 (f / aspect) 0 0 0
         0 f 0 0
         0 0 ((far + near) * nf) (-1)
         0 0 (2 * far * near * nf) 0.

End mat4v.

(** The three axes the source rotates about. *)
Definition axisX : Vec3 := (1, 0, 0).
Definition axisY : Vec3 := (0, 1, 0).
Definition axisZ : Vec3 := (0, 0, 1).

(** The textbook rotation matrices about the coordinate axes, column by
    column (what [mat4.fromZRotation] and its siblings produce). *)
Definition rotZ (rad : R) : Mat4 :=
  mkMat4 (cos rad) (sin rad) 0 0
         (- sin rad) (cos rad) 0 0
         0 0 1 0
         0 0 0 1.

Definition rotY (rad : R) : Mat4 :=
  mkMat4 (cos rad) 0 (- sin rad) 0
         0 1 0 0
         (sin rad) 0 (cos rad) 0
         0 0 0 1.

Definition rotX (rad : R) : Mat4 :=
  mkMat4 1 0 0 0
         0 (cos rad) (sin rad) 0
         0 (- sin rad) (cos rad) 0
         0 0 0 1.

(** ** The host: WebGL context, shader compiler, scheduler *)

Inductive ShaderType : Type := VERTEX_SHADER | FRAGMENT_SHADER.
Inductive ShaderParam : Type := COMPILE_STATUS.
Inductive ProgramParam : Type := LINK_STATUS.
Inductive BufferTarget : Type := ARRAY_BUFFER.
Inductive BufferUsage : Type := STATIC_DRAW.
Inductive Capability : Type := DEPTH_TEST.
Inductive CompareFunc : Type := LEQUAL.
Inductive DataType : Type := FLOAT.
Inductive DrawMode : Type := TRIANGLE_STRIP.

Definition COLOR_BUFFER_BIT : Z := 16384.
Definition DEPTH_BUFFER_BIT : Z := 256.

(** Handles of GL objects are indices into the tables of the context;
    a JavaScript [null] handle is [None]. *)
Definition WebGLShader : Type := nat.
Definition WebGLProgram : Type := nat.
Definition WebGLBuffer : Type := nat.
Definition WebGLUniformLocation : Type := nat.

(** References to typed arrays in the JavaScript heap. *)
Definition Ref : Type := nat.

Definition ShaderType_eqb (a b : ShaderType) : bool :=
  match a, b with
  | VERTEX_SHADER, VERTEX_SHADER => true
  | FRAGMENT_SHADER, FRAGMENT_SHADER => true
  | _, _ => false
  end.

(** What the environment answers.  Nothing in the source fixes these, so
    every property is stated for an arbitrary host. *)
Record Host : Type := mkHost {
  (** [canvas.getContext("webgl")] returns a context (not [null]) *)
  hasContext : bool;
  (** a [null] passed where the WebGL interface declares a non-nullable
      object raises [TypeError] ([true], the current interface) or only sets
      the error flag [INVALID_VALUE] ([false], the first revisions) *)
  strictNull : bool;
  (** [COMPILE_STATUS] after compiling a source as a stage *)
  compiles : ShaderType -> string -> bool;
  (** [getShaderInfoLog] *)
  shaderInfoLog : ShaderType -> string -> string;
  (** [LINK_STATUS] for a compiled vertex and fragment source *)
  links : string -> string -> bool;
  (** [getProgramInfoLog], from the compiled sources attached *)
  programInfoLog : option string -> option string -> string;
  (** binding slots of a linked program; [-1] and [None] are "not found" *)
  attribLocation : WebGLProgram -> string -> Z;
  uniformLocation : WebGLProgram -> string -> option WebGLUniformLocation;
  (** [gl.canvas.clientWidth], [gl.canvas.clientHeight] *)
  clientWidth : R;
  clientHeight : R
}.

Record ShaderObj : Type := mkShaderObj {
  sh_type : ShaderType;
  sh_source : string;
  sh_compiled : bool
}.

Record ProgramObj : Type := mkProgramObj {
  pr_attached : list WebGLShader;
  pr_linked : bool
}.

Record BufferObj : Type := mkBufferObj {
  buf_data : list R;
  buf_usage : option BufferUsage
}.

(** Every call the program makes on the host, with its arguments. *)
Inductive Event : Type :=
| Alert (msg : string)
| RequestAnimationFrame
| CreateShader (type : ShaderType)
| ShaderSource (shader : WebGLShader) (source : string)
| CompileShader (shader : WebGLShader)
| GetShaderParameter (shader : WebGLShader) (pname : ShaderParam)
| GetShaderInfoLog (shader : WebGLShader)
| DeleteShader (shader : WebGLShader)
| CreateProgram
| AttachShader (program : WebGLProgram) (shader : option WebGLShader)
| LinkProgram (program : WebGLProgram)
| GetProgramParameter (program : WebGLProgram) (pname : ProgramParam)
| GetProgramInfoLog (program : WebGLProgram)
| GetAttribLocation (program : option WebGLProgram) (name : string)
| GetUniformLocation (program : option WebGLProgram) (name : string)
| CreateBuffer
| BindBuffer (target : BufferTarget) (buffer : WebGLBuffer)
| BufferData (target : BufferTarget) (data : list R) (usage : BufferUsage)
| ClearColor (r g b a : R)
| ClearDepth (d : R)
| Enable (cap : Capability)
| DepthFunc (func : CompareFunc)
| Clear (mask : Z)
| VertexAttribPointer (index : Z) (size : Z) (type : DataType)
                      (normalized : bool) (stride offset : Z)
| EnableVertexAttribArray (index : Z)
| UseProgram (program : option WebGLProgram)
| UniformMatrix4fv (location : option WebGLUniformLocation) (transpose : bool)
                   (value : Mat4)
| DrawArrays (mode : DrawMode) (first count : Z).

(** The state the program and its host share. *)
Record World : Type := mkWorld {
  (** JavaScript heap: the typed arrays made by [mat4.create] *)
  heap : Ref -> Mat4;
  heapNext : Ref;
  (** objects of the WebGL context *)
  shaders : list ShaderObj;
  programs : list ProgramObj;
  buffers : list BufferObj;
  arrayBufferBinding : option WebGLBuffer;
  (** callbacks registered with [requestAnimationFrame], not yet run *)
  rafPending : nat;
  (** calls made so far, newest first *)
  events : list Event
}.

Definition zeroMat4 : Mat4 := mkMat4 0 0 0 0 0 0 0 0 0 0 0 0 0 0 0 0.

(** The world when the page has loaded and [main] is about to run. *)
Definition World0 : World :=
  mkWorld (fun _ => zeroMat4) 0%nat [] [] [] None 0%nat [].

(** The calls made so far, oldest first. *)
Definition trace (w : World) : list Event := rev (events w).

Definition with_heap (h : Ref -> Mat4) (n : Ref) (w : World) : World :=
  mkWorld h n (shaders w) (programs w) (buffers w) (arrayBufferBinding w)
          (rafPending w) (events w).
Definition with_shaders (l : list ShaderObj) (w : World) : World :=
  mkWorld (heap w) (heapNext w) l (programs w) (buffers w) (arrayBufferBinding w)
          (rafPending w) (events w).
Definition with_programs (l : list ProgramObj) (w : World) : World :=
  mkWorld (heap w) (heapNext w) (shaders w) l (buffers w) (arrayBufferBinding w)
          (rafPending w) (events w).
Definition with_buffers (l : list BufferObj) (w : World) : World :=
  mkWorld (heap w) (heapNext w) (shaders w) (programs w) l (arrayBufferBinding w)
          (rafPending w) (events w).
Definition with_binding (b : option WebGLBuffer) (w : World) : World :=
  mkWorld (heap w) (heapNext w) (shaders w) (programs w) (buffers w) b
          (rafPending w) (events w).
Definition with_rafPending (n : nat) (w : World) : World :=
  mkWorld (heap w) (heapNext w) (shaders w) (programs w) (buffers w)
          (arrayBufferBinding w) n (events w).
Definition with_event (e : Event) (w : World) : World :=
  mkWorld (heap w) (heapNext w) (shaders w) (programs w) (buffers w)
          (arrayBufferBinding w) (rafPending w) (e :: events w).

(** Replace entry [i] of a table; out of range the table is unchanged. *)
Fixpoint setNth {A : Type} (i : nat) (x : A) (l : list A) : list A :=
  match l, i with
  | [], _ => []
  | _ :: t, O => x :: t
  | h :: t, S j => h :: setNth j x t
  end.

(** Overwrite one typed array of the heap. *)
Definition store (r : Ref) (m : Mat4) (h : Ref -> Mat4) : Ref -> Mat4 :=
  fun r' => if Nat.eqb r' r then m else h r'.

(** ** Computations: state passing with exceptions *)

Inductive Exn : Type := TypeError (msg : string).

Inductive Result (A : Type) : Type :=
| Ok (a : A)
| Throw (e : Exn).
Arguments Ok {A} a.
Arguments Throw {A} e.

Definition M (A : Type) : Type := World -> Result A * World.

Definition ret {A : Type} (a : A) : M A := fun w => (Ok a, w).

Definition bind {A B : Type} (m : M A) (k : A -> M B) : M B :=
  fun w =>
    match m w with
    | (Ok a, w') => k a w'
    | (Throw e, w') => (Throw e, w')
    end.

Definition throw {A : Type} (e : Exn) : M A := fun w => (Throw e, w).

Definition emit (e : Event) : M unit := fun w => (Ok tt, with_event e w).

Definition getW : M World := fun w => (Ok w, w).

Definition modifyW (f : World -> World) : M unit := fun w => (Ok tt, f w).

Declare Scope js_scope.
Delimit Scope js_scope with js.
Notation "x <- c1 ;; c2" := (bind c1 (fun x => c2))
  (at level 61, c1 at next level, right associativity) : js_scope.
Notation "c1 ;; c2" := (bind c1 (fun _ => c2))
  (at level 61, right associativity) : js_scope.
Local Open Scope js_scope.

(** Did the computation return normally? *)
Definition returned {A : Type} (o : Result A * World) : bool :=
  match fst o with Ok _ => true | Throw _ => false end.

(** [alert(msg)]: the blocking notification of the browser. *)
Definition alert (msg : string) : M unit := emit (Alert msg).

(** [requestAnimationFrame(step)]: one more callback is pending. *)
Definition requestAnimationFrame : M unit :=
  emit RequestAnimationFrame ;;
  modifyW (fun w => with_rafPending (S (rafPending w)) w).

(** ** gl-matrix on the heap *)

Module mat4.

(** [mat4.create()]: a fresh identity array. *)
Definition create : M Ref :=
  fun w =>
    let r := heapNext w in
    (Ok r, with_heap (store r mat4v.identity (heap w)) (S r) w).

Definition write (out : Ref) (m : Mat4) : M unit :=
  modifyW (fun w => with_heap (store out m (heap w)) (heapNext w) w).

Definition read (a : Ref) : M Mat4 := fun w => (Ok (heap w a), w).

(** [mat4.multiply(out, a, b)]; returns [out]. *)
Definition multiply (out a b : Ref) : M Ref :=
  va <- read a ;;
  vb <- read b ;;
  write out (mat4v.multiply va vb) ;;
  ret out.

(** [mat4.rotate(out, a, rad, axis)]; returns [out], or [null] (and
    writes nothing) for a degenerate axis. *)
Definition rotate (out a : Ref) (rad : R) (axis : Vec3) : M (option Ref) :=
  va <- read a ;;
  match mat4v.rotate va rad axis with
  | None => ret None
  | Some m => write out m ;; ret (Some out)
  end.

(** [mat4.translate(out, a, v)]; returns [out]. *)
Definition translate (out a : Ref) (v : Vec3) : M Ref :=
  va <- read a ;;
  write out (mat4v.translate va v) ;;
  ret out.

(** [mat4.scale(out, a, v)]; returns [out]. *)
Definition scale (out a : Ref) (v : Vec3) : M Ref :=
  va <- read a ;;
  write out (mat4v.scale va v) ;;
  ret out.

(** [mat4.perspective(out, fovy, aspect, near, far)]; returns [out]. *)
Definition perspective (out : Ref) (fovy aspect near far : R) : M Ref :=
  write out (mat4v.perspective fovy aspect near far) ;;
  ret out.

End mat4.

(** ** The WebGL context

    The entry points of the browser's WebGL interface that the source
    calls.  Each records the call in the event log, keeps the object tables
    of the context up to date, and takes every answer that depends on the
    implementation (compile and link status, logs, binding slots, the
    treatment of a [null] handle) from the [Host]. *)

Module gl.
Section Context.

Variable host : Host.

(** A [null] handle given to an entry point that wants an object. *)
Definition nullArgument {A : Type} (fallback : A) : M A :=
  if strictNull host
  then throw (TypeError "parameter is not a WebGL object")
  else ret fallback.

Definition createShader (type : ShaderType) : M WebGLShader :=
  emit (CreateShader type) ;;
  w <- getW ;;
  let shader := List.length (shaders w) in
  modifyW (with_shaders (shaders w ++ [mkShaderObj type "" false])) ;;
  ret shader.

Definition shaderSource (shader : WebGLShader) (source : string) : M unit :=
  emit (ShaderSource shader source) ;;
  modifyW (fun w =>
    match nth_error (shaders w) shader with
    | Some o => with_shaders
                  (setNth shader (mkShaderObj (sh_type o) source (sh_compiled o))
                          (shaders w)) w
    | None => w
    end).

Definition compileShader (shader : WebGLShader) : M unit :=
  emit (CompileShader shader) ;;
  modifyW (fun w =>
    match nth_error (shaders w) shader with
    | Some o => with_shaders
                  (setNth shader
                     (mkShaderObj (sh_type o) (sh_source o)
                                  (compiles host (sh_type o) (sh_source o)))
                     (shaders w)) w
    | None => w
    end).

Definition getShaderParameter (shader : WebGLShader) (pname : ShaderParam) : M bool :=
  emit (GetShaderParameter shader pname) ;;
  w <- getW ;;
  ret match nth_error (shaders w) shader with
      | Some o => sh_compiled o
      | None => false
      end.

Definition getShaderInfoLog (shader : WebGLShader) : M string :=
  emit (GetShaderInfoLog shader) ;;
  w <- getW ;;
  ret match nth_error (shaders w) shader with
      | Some o => shaderInfoLog host (sh_type o) (sh_source o)
      | None => ""%string
      end.

Definition deleteShader (shader : WebGLShader) : M unit :=
  emit (DeleteShader shader).

Definition createProgram : M WebGLProgram :=
  emit CreateProgram ;;
  w <- getW ;;
  let program := List.length (programs w) in
  modifyW (with_programs (programs w ++ [mkProgramObj [] false])) ;;
  ret program.

(** The shader argument is not nullable. *)
Definition attachShader (program : WebGLProgram) (shader : option WebGLShader) : M unit :=
  emit (AttachShader program shader) ;;
  match shader with
  | None => nullArgument tt
  | Some s =>
      modifyW (fun w =>
        match nth_error (programs w) program with
        | Some o => with_programs
                      (setNth program (mkProgramObj (pr_attached o ++ [s]) (pr_linked o))
                              (programs w)) w
        | None => w
        end)
  end.

(** The source of the first attached shader of a stage that compiled. *)
Fixpoint compiledStage (table : list ShaderObj) (type : ShaderType)
                       (attached : list WebGLShader) : option string :=
  match attached with
  | [] => None
  | s :: rest =>
      match nth_error table s with
      | Some o =>
          if ShaderType_eqb (sh_type o) type && sh_compiled o
          then Some (sh_source o)
          else compiledStage table type rest
      | None => compiledStage table type rest
      end
  end.

(** A program links only with a compiled shader of each stage. *)
Definition linkStatus (table : list ShaderObj) (attached : list WebGLShader) : bool :=
  match compiledStage table VERTEX_SHADER attached,
        compiledStage table FRAGMENT_SHADER attached with
  | Some vs, Some fs => links host vs fs
  | _, _ => false
  end.

Definition linkProgram (program : WebGLProgram) : M unit :=
  emit (LinkProgram program) ;;
  modifyW (fun w =>
    match nth_error (programs w) program with
    | Some o => with_programs
                  (setNth program
                     (mkProgramObj (pr_attached o)
                                   (linkStatus (shaders w) (pr_attached o)))
                     (programs w)) w
    | None => w
    end).

Definition getProgramParameter (program : WebGLProgram) (pname : ProgramParam) : M bool :=
  emit (GetProgramParameter program pname) ;;
  w <- getW ;;
  ret match nth_error (programs w) program with
      | Some o => pr_linked o
      | None => false
      end.

Definition getProgramInfoLog (program : WebGLProgram) : M string :=
  emit (GetProgramInfoLog program) ;;
  w <- getW ;;
  ret match nth_error (programs w) program with
      | Some o => programInfoLog host
                    (compiledStage (shaders w) VERTEX_SHADER (pr_attached o))
                    (compiledStage (shaders w) FRAGMENT_SHADER (pr_attached o))
      | None => ""%string
      end.

Definition isLinked (w : World) (program : WebGLProgram) : bool :=
  match nth_error (programs w) program with
  | Some o => pr_linked o
  | None => false
  end.

(** The program argument is not nullable. *)
Definition getAttribLocation (program : option WebGLProgram) (name : string) : M Z :=
  emit (GetAttribLocation program name) ;;
  match program with
  | None => nullArgument (-1)%Z
  | Some p =>
      w <- getW ;;
      ret (if isLinked w p then attribLocation host p name else (-1)%Z)
  end.

(** The program argument is not nullable. *)
Definition getUniformLocation (program : option WebGLProgram) (name : string)
  : M (option WebGLUniformLocation) :=
  emit (GetUniformLocation program name) ;;
  match program with
  | None => nullArgument None
  | Some p =>
      w <- getW ;;
      ret (if isLinked w p then uniformLocation host p name else None)
  end.

Definition createBuffer : M WebGLBuffer :=
  emit CreateBuffer ;;
  w <- getW ;;
  let buffer := List.length (buffers w) in
  modifyW (with_buffers (buffers w ++ [mkBufferObj [] None])) ;;
  ret buffer.

Definition bindBuffer (target : BufferTarget) (buffer : WebGLBuffer) : M unit :=
  emit (BindBuffer target buffer) ;;
  modifyW (with_binding (Some buffer)).

(** [bufferData] fills the buffer bound to the target. *)
Definition bufferData (target : BufferTarget) (data : list R) (usage : BufferUsage) : M unit :=
  emit (BufferData target data usage) ;;
  modifyW (fun w =>
    match arrayBufferBinding w with
    | Some b => with_buffers (setNth b (mkBufferObj data (Some usage)) (buffers w)) w
    | None => w
    end).

Definition clearColor (r g b a : R) : M unit := emit (ClearColor r g b a).
Definition clearDepth (d : R) : M unit := emit (ClearDepth d).
Definition enable (cap : Capability) : M unit := emit (Enable cap).
Definition depthFunc (func : CompareFunc) : M unit := emit (DepthFunc func).
Definition clear (mask : Z) : M unit := emit (Clear mask).

Definition vertexAttribPointer (index size : Z) (type : DataType)
           (normalized : bool) (stride offset : Z) : M unit :=
  emit (VertexAttribPointer index size type normalized stride offset).

Definition enableVertexAttribArray (index : Z) : M unit :=
  emit (EnableVertexAttribArray index).

(** [useProgram] accepts [null]. *)
Definition useProgram (program : option WebGLProgram) : M unit :=
  emit (UseProgram program).

(** [uniformMatrix4fv] copies the sixteen values of the array it is
    given; a [null] location is accepted. *)
Definition uniformMatrix4fv (location : option WebGLUniformLocation)
           (transpose : bool) (value : Ref) : M unit :=
  m <- mat4.read value ;;
  emit (UniformMatrix4fv location transpose m).

Definition drawArrays (mode : DrawMode) (first count : Z) : M unit :=
  emit (DrawArrays mode first count).

(** [gl.canvas.clientWidth / gl.canvas.clientHeight] *)
Definition canvasAspect : R := clientWidth host / clientHeight host.

End Context.
End gl.

(** ** The static variant (first program of src/js/main.js) *)

Module Static.

Definition shader_vertex : string := "
  attribute vec3 Vertex;

  uniform mat4 ModelView;
  uniform mat4 Projection;

  void main()
  {
      gl_Position =  Projection * ModelView * vec4(Vertex.x, Vertex.y, Vertex.z, 1.0);
  }
".

Definition shader_fragment : string := "
  void main()
  {
    gl_FragColor = vec4(1.0, 1.0, 1.0, 1.0);
  }
".

Record AttribLocations : Type := mkAttribLocations {
  vertexPosition : Z
}.

Record UniformLocations : Type := mkUniformLocations {
  projectionMatrix : option WebGLUniformLocation;
  modelViewMatrix : option WebGLUniformLocation
}.

Record ProgramInfo : Type := mkProgramInfo {
  program : option WebGLProgram;
  attribLocations : AttribLocations;
  uniformLocations : UniformLocations
}.

Record Buffers : Type := mkBuffers {
  position : WebGLBuffer
}.

Section Program.

Variable host : Host.

(** [loadShader(gl, type, source)]: the compiled shader, or [null]. *)
Definition loadShader (type : ShaderType) (source : string) : M (option WebGLShader) :=
  shader <- gl.createShader type ;;
  gl.shaderSource shader source ;;
  gl.compileShader host shader ;;
  status <- gl.getShaderParameter shader COMPILE_STATUS ;;
  if negb status then
    log <- gl.getShaderInfoLog host shader ;;
    alert ("An error occurred compiling the shaders: " ++ log)%string ;;
    gl.deleteShader shader ;;
    ret None
  else ret (Some shader).

(** [initShader(gl, vertex_source, fragment_source)]: the linked
    program, or [null]. *)
Definition initShader (vertex_source fragment_source : string) : M (option WebGLProgram) :=
  vertex <- loadShader VERTEX_SHADER vertex_source ;;
  fragment <- loadShader FRAGMENT_SHADER fragment_source ;;
  shaderProgram <- gl.createProgram ;;
  gl.attachShader host shaderProgram vertex ;;
  gl.attachShader host shaderProgram fragment ;;
  gl.linkProgram host shaderProgram ;;
  status <- gl.getProgramParameter shaderProgram LINK_STATUS ;;
  if negb status then
    log <- gl.getProgramInfoLog host shaderProgram ;;
    alert ("Unable to initialize the shader program: " ++ log)%string ;;
    ret None
  else ret (Some shaderProgram).

(** [initBuffers(gl)] *)
Definition initBuffers : M Buffers :=
  positionBuffer <- gl.createBuffer ;;
  gl.bindBuffer ARRAY_BUFFER positionBuffer ;;
  let positions := [1; 1; -1; 1;
                    1; -1; -1; -1] in
  gl.bufferData ARRAY_BUFFER positions STATIC_DRAW ;;
  ret (mkBuffers positionBuffer).

(** [drawScene(gl, programInfo, buffers)] *)
Definition drawScene (programInfo : ProgramInfo) (buffers : Buffers) : M unit :=
  gl.clearColor 0 0 0 1 ;;
  gl.clearDepth 1 ;;
  gl.enable DEPTH_TEST ;;
  gl.depthFunc LEQUAL ;;
  gl.clear (Z.lor COLOR_BUFFER_BIT DEPTH_BUFFER_BIT) ;;
  let fieldOfView := 45 * PI / 180 in
  let aspect := gl.canvasAspect host in
  let zNear := 0.1 in
  let zFar := 100 in
  projectionMatrix_ <- mat4.create ;;
  mat4.perspective projectionMatrix_ fieldOfView aspect zNear zFar ;;
  modelViewMatrix_ <- mat4.create ;;
  mat4.translate modelViewMatrix_ modelViewMatrix_ (0, 0, -6) ;;
  (let numComponents := 2%Z in
   let type := FLOAT in
   let normalize := false in
   let stride := 0%Z in
   let offset := 0%Z in
   gl.bindBuffer ARRAY_BUFFER (position buffers) ;;
   gl.vertexAttribPointer (vertexPosition (attribLocations programInfo))
                          numComponents type normalize stride offset ;;
   gl.enableVertexAttribArray (vertexPosition (attribLocations programInfo))) ;;
  gl.useProgram (program programInfo) ;;
  gl.uniformMatrix4fv (projectionMatrix (uniformLocations programInfo))
                      false projectionMatrix_ ;;
  gl.uniformMatrix4fv (modelViewMatrix (uniformLocations programInfo))
                      false modelViewMatrix_ ;;
  (let offset := 0%Z in
   let vertexCount := 4%Z in
   gl.drawArrays TRIANGLE_STRIP offset vertexCount).

(** [main()] *)
Definition main : M unit :=
  if negb (hasContext host) then
    alert "Unable to initialize WebGL."
  else
    shaderProgram <- initShader shader_vertex shader_fragment ;;
    vertexPosition_ <- gl.getAttribLocation host shaderProgram "Vertex" ;;
    projectionMatrix_ <- gl.getUniformLocation host shaderProgram "Projection" ;;
    modelViewMatrix_ <- gl.getUniformLocation host shaderProgram "ModelView" ;;
    let shaderProgramInfo :=
      mkProgramInfo shaderProgram
                    (mkAttribLocations vertexPosition_)
                    (mkUniformLocations projectionMatrix_ modelViewMatrix_) in
    buffers <- initBuffers ;;
    drawScene shaderProgramInfo buffers.

End Program.

End Static.

(** ** The animated variant (second program of src/js/main.js) *)

Module Animated.

Definition SHADER_VERTEX : string := "
  attribute vec3 Vertex;
  attribute vec3 Color;

  uniform mat4 ModelView;
  uniform mat4 Projection;

  varying lowp vec3 vColor;

  void main()
  {
      gl_Position =  Projection * ModelView * vec4(Vertex.x, Vertex.y, Vertex.z, 1.0);
      vColor = Color;
  }
".

Definition SHADER_FRAGMENT : string := "
  varying lowp vec3 vColor;

  void main()
  {
    gl_FragColor = vec4(vColor.x, vColor.y, vColor.z, 1.0);
  }
".

Record AttribLocations : Type := mkAttribLocations {
  vertexPosition : Z;
  vertexColor : Z
}.

Record UniformLocations : Type := mkUniformLocations {
  projectionMatrix : option WebGLUniformLocation;
  modelViewMatrix : option WebGLUniformLocation
}.

Record ProgramInfo : Type := mkProgramInfo {
  program : option WebGLProgram;
  attribLocations : AttribLocations;
  uniformLocations : UniformLocations
}.

Record Buffers : Type := mkBuffers {
  position : WebGLBuffer;
  color : WebGLBuffer
}.

(** The closure [step] of [animateScene]: the arguments it captures and
    the variables [start], [last], [rotationCount] it shares with later
    calls.  [start = None] is the initial [null]. *)
Record Closure : Type := mkClosure {
  programInfo : ProgramInfo;
  buffers : Buffers;
  toWorld : Ref;
  start : option R;
  last : R;
  rotationCount : R
}.

(** [360000 * Math.PI / 180], in milliseconds. *)
Definition singleRotation : R := 360000 * PI / 180.

(** The value of [start] after [if (!start) start = timestamp;]:
    [null] and [0] are both falsy. *)
Definition startAfter (start : option R) (timestamp : R) : R :=
  match start with
  | None => timestamp
  | Some s => if Req_dec_T s 0 then timestamp else s
  end.

(** [progress]: the elapsed time the callback computes, in ms. *)
Definition progressOf (c : Closure) (timestamp : R) : R :=
  timestamp - startAfter (start c) timestamp.

(** [delta]: seconds since the previous callback. *)
Definition deltaOf (c : Closure) (timestamp : R) : R :=
  progressOf c timestamp * 0.001 - last c.

Section Program.

Variable host : Host.

(** [loadShader(gl, type, source)]: the compiled shader, or [null]. *)
Definition loadShader (type : ShaderType) (source : string) : M (option WebGLShader) :=
  shader <- gl.createShader type ;;
  gl.shaderSource shader source ;;
  gl.compileShader host shader ;;
  status <- gl.getShaderParameter shader COMPILE_STATUS ;;
  if negb status then
    log <- gl.getShaderInfoLog host shader ;;
    alert ("An error occurred compiling the shaders: " ++ log)%string ;;
    gl.deleteShader shader ;;
    ret None
  else ret (Some shader).

(** [initShaderProgram(gl, vertex_source, fragment_source)]: the linked
    program, or [null]. *)
Definition initShaderProgram (vertex_source fragment_source : string)
  : M (option WebGLProgram) :=
  vertex <- loadShader VERTEX_SHADER vertex_source ;;
  fragment <- loadShader FRAGMENT_SHADER fragment_source ;;
  shaderProgram <- gl.createProgram ;;
  gl.attachShader host shaderProgram vertex ;;
  gl.attachShader host shaderProgram fragment ;;
  gl.linkProgram host shaderProgram ;;
  status <- gl.getProgramParameter shaderProgram LINK_STATUS ;;
  if negb status then
    log <- gl.getProgramInfoLog host shaderProgram ;;
    alert ("Unable to initialize the shader program: " ++ log)%string ;;
    ret None
  else ret (Some shaderProgram).

(** [initBuffers(gl)] *)
Definition initBuffers : M Buffers :=
  positionBuffer <- gl.createBuffer ;;
  gl.bindBuffer ARRAY_BUFFER positionBuffer ;;
  let positions := [1; 1; -1; 1;
                    1; -1; -1; -1] in
  gl.bufferData ARRAY_BUFFER positions STATIC_DRAW ;;
  colorBuffer <- gl.createBuffer ;;
  gl.bindBuffer ARRAY_BUFFER colorBuffer ;;
  let colors := [1; 1; 1; 1;
                 1; 0; 0; 1;
                 0; 1; 0; 1;
                 0; 0; 1; 1] in
  gl.bufferData ARRAY_BUFFER colors STATIC_DRAW ;;
  ret (mkBuffers positionBuffer colorBuffer).

(** [drawScene(gl, programInfo, buffers, toWorld)] *)
Definition drawScene (programInfo : ProgramInfo) (buffers : Buffers) (toWorld : Ref)
  : M unit :=
  gl.clearColor 0 0 0 1 ;;
  gl.clearDepth 1 ;;
  gl.enable DEPTH_TEST ;;
  gl.depthFunc LEQUAL ;;
  gl.clear (Z.lor COLOR_BUFFER_BIT DEPTH_BUFFER_BIT) ;;
  let fieldOfView := 45 * PI / 180 in
  let aspect := gl.canvasAspect host in
  let zNear := 0.1 in
  let zFar := 100 in
  projectionMatrix_ <- mat4.create ;;
  mat4.perspective projectionMatrix_ fieldOfView aspect zNear zFar ;;
  modelViewMatrix_ <- mat4.create ;;
  modelViewMatrix_ <- mat4.multiply modelViewMatrix_ toWorld modelViewMatrix_ ;;
  (let numComponents := 2%Z in
   let type := FLOAT in
   let normalize := false in
   let stride := 0%Z in
   let offset := 0%Z in
   gl.bindBuffer ARRAY_BUFFER (position buffers) ;;
   gl.vertexAttribPointer (vertexPosition (attribLocations programInfo))
                          numComponents type normalize stride offset ;;
   gl.enableVertexAttribArray (vertexPosition (attribLocations programInfo))) ;;
  (let numComponents := 4%Z in
   let type := FLOAT in
   let normalize := false in
   let stride := 0%Z in
   let offset := 0%Z in
   gl.bindBuffer ARRAY_BUFFER (color buffers) ;;
   gl.vertexAttribPointer (vertexColor (attribLocations programInfo))
                          numComponents type normalize stride offset ;;
   gl.enableVertexAttribArray (vertexColor (attribLocations programInfo))) ;;
  gl.useProgram (program programInfo) ;;
  gl.uniformMatrix4fv (projectionMatrix (uniformLocations programInfo))
                      false projectionMatrix_ ;;
  gl.uniformMatrix4fv (modelViewMatrix (uniformLocations programInfo))
                      false modelViewMatrix_ ;;
  (let offset := 0%Z in
   let vertexCount := 4%Z in
   gl.drawArrays TRIANGLE_STRIP offset vertexCount).

(** The [if / else if / else] chain of [step] (lines 432-447 of the
    animated program): the transformations applied to [toWorld] for a
    given [progress] and [delta]. *)
Definition animate (toWorld : Ref) (progress delta : R) : M unit :=
  if Rlt_dec progress singleRotation then
    mat4.rotate toWorld toWorld delta (0, 0, 1) ;; ret tt
  else if Rlt_dec progress (2 * singleRotation) then
    mat4.rotate toWorld toWorld delta (0, 0, 1) ;;
    mat4.rotate toWorld toWorld delta (0, 1, 0) ;;
    mat4.rotate toWorld toWorld delta (1, 0, 0) ;;
    ret tt
  else ret tt.

(** [step(timestamp)], the frame callback; the result is the closure
    with its variables as the call leaves them. *)
Definition step (c : Closure) (timestamp : R) : M Closure :=
  let start_ := startAfter (start c) timestamp in
  let progress := timestamp - start_ in
  let curr := progress * 0.001 in
  let delta := curr - last c in
  let last_ := curr in
  animate (toWorld c) progress delta ;;
  drawScene (programInfo c) (buffers c) (toWorld c) ;;
  requestAnimationFrame ;;
  ret (mkClosure (programInfo c) (buffers c) (toWorld c)
                 (Some start_) last_ (rotationCount c)).

(** [animateScene(gl, programInfo, buffers, toWorld)]: registers [step]
    with the scheduler; the result is the closure the scheduler holds. *)
Definition animateScene (programInfo : ProgramInfo) (buffers : Buffers) (toWorld : Ref)
  : M Closure :=
  let start_ := None in
  let last_ := 0 in
  let rotationCount_ := 0 in
  requestAnimationFrame ;;
  ret (mkClosure programInfo buffers toWorld start_ last_ rotationCount_).

(** [main()]: [None] when it returns before [animateScene]. *)
Definition main : M (option Closure) :=
  if negb (hasContext host) then
    alert "Unable to initialize WebGL." ;; ret None
  else
    shaderProgram <- initShaderProgram SHADER_VERTEX SHADER_FRAGMENT ;;
    vertexPosition_ <- gl.getAttribLocation host shaderProgram "Vertex" ;;
    vertexColor_ <- gl.getAttribLocation host shaderProgram "Color" ;;
    projectionMatrix_ <- gl.getUniformLocation host shaderProgram "Projection" ;;
    modelViewMatrix_ <- gl.getUniformLocation host shaderProgram "ModelView" ;;
    let shaderProgramInfo :=
      mkProgramInfo shaderProgram
                    (mkAttribLocations vertexPosition_ vertexColor_)
                    (mkUniformLocations projectionMatrix_ modelViewMatrix_) in
    buffers <- initBuffers ;;
    toWorld <- mat4.create ;;
    mat4.scale toWorld toWorld (1, 1, 1) ;;
    let rotations := 0 in
    mat4.rotate toWorld toWorld rotations (0, 0, 1) ;;
    mat4.translate toWorld toWorld (0, 0, -6) ;;
    c <- animateScene shaderProgramInfo buffers toWorld ;;
    ret (Some c).

(** The scheduler runs a pending callback with a timestamp. *)
Definition frame (c : Closure) (timestamp : R) : M Closure :=
  w <- getW ;;
  match rafPending w with
  | O => ret c
  | S n => modifyW (with_rafPending n) ;; step c timestamp
  end.

(** A run of frames, one per timestamp. *)
Fixpoint frames (c : Closure) (timestamps : list R) : M Closure :=
  match timestamps with
  | [] => ret c
  | t :: rest => c' <- frame c t ;; frames c' rest
  end.

End Program.

End Animated.

(** ** Vocabulary of the properties *)

Definition isDrawArrays (e : Event) : bool :=
  match e with DrawArrays _ _ _ => true | _ => false end.

Definition isBufferData (e : Event) : bool :=
  match e with BufferData _ _ _ => true | _ => false end.

Definition isRequestAnimationFrame (e : Event) : bool :=
  match e with RequestAnimationFrame => true | _ => false end.

(** How many draw calls a list of events holds. *)
Definition drawCount (evs : list Event) : nat :=
  List.length (filter isDrawArrays evs).

(** The uniform uploads of a list of events: location and matrix. *)
Fixpoint uniformsSent (evs : list Event)
  : list (option WebGLUniformLocation * Mat4) :=
  match evs with
  | [] => []
  | UniformMatrix4fv loc _ m :: rest => (loc, m) :: uniformsSent rest
  | _ :: rest => uniformsSent rest
  end.

(** A flat array read [n] components at a time, as [vertexAttribPointer]
    declares it: pairs for positions, quadruples for colors. *)
Fixpoint pairs (data : list R) : list (R * R) :=
  match data with
  | x :: y :: rest => (x, y) :: pairs rest
  | _ => []
  end.

Fixpoint quads (data : list R) : list (R * R * R * R) :=
  match data with
  | r :: g :: b :: a :: rest => (r, g, b, a) :: quads rest
  | _ => []
  end.

Fixpoint Rsum (l : list R) : R :=
  match l with
  | [] => 0
  | x :: rest => x + Rsum rest
  end.

(** The closure variables after one callback at [timestamp]. *)
Definition nextClosure (c : Animated.Closure) (timestamp : R) : Animated.Closure :=
  Animated.mkClosure (Animated.programInfo c) (Animated.buffers c) (Animated.toWorld c)
    (Some (Animated.startAfter (Animated.start c) timestamp))
    (Animated.progressOf c timestamp * 0.001)
    (Animated.rotationCount c).

Fixpoint closureAfter (c : Animated.Closure) (timestamps : list R) : Animated.Closure :=
  match timestamps with
  | [] => c
  | t :: rest => closureAfter (nextClosure c t) rest
  end.

(** The elapsed times and the delta times of a run of callbacks. *)
Fixpoint progresses (c : Animated.Closure) (timestamps : list R) : list R :=
  match timestamps with
  | [] => []
  | t :: rest => Animated.progressOf c t :: progresses (nextClosure c t) rest
  end.

Fixpoint deltas (c : Animated.Closure) (timestamps : list R) : list R :=
  match timestamps with
  | [] => []
  | t :: rest => Animated.deltaOf c t :: deltas (nextClosure c t) rest
  end.

(** The world transform one callback leaves, as a product of matrices. *)
Definition animated (W : Mat4) (progress delta : R) : Mat4 :=
  if Rlt_dec progress Animated.singleRotation then
    mat4v.multiply W (rotZ delta)
  else if Rlt_dec progress (2 * Animated.singleRotation) then
    mat4v.multiply (mat4v.multiply (mat4v.multiply W (rotZ delta)) (rotY delta))
                   (rotX delta)
  else W.

Fixpoint worldTransformAfter (W : Mat4) (c : Animated.Closure) (timestamps : list R)
  : Mat4 :=
  match timestamps with
  | [] => W
  | t :: rest =>
      worldTransformAfter (animated W (Animated.progressOf c t) (Animated.deltaOf c t))
                          (nextClosure c t) rest
  end.

(** ** Sample hosts and states, for concrete runs *)

Definition sampleHost (strict vertexOk fragmentOk linkOk : bool) : Host :=
  mkHost true strict
         (fun type _ => match type with
                        | VERTEX_SHADER => vertexOk
                        | FRAGMENT_SHADER => fragmentOk
                        end)
         (fun _ _ => "ERROR: 0:1: syntax error"%string)
         (fun _ _ => linkOk)
         (fun _ _ => "link failed"%string)
         (fun _ name => if String.eqb name "Vertex" then 0%Z
                        else if String.eqb name "Color" then 1%Z else (-1)%Z)
         (fun _ name => if String.eqb name "Projection" then Some 0%nat
                        else if String.eqb name "ModelView" then Some 1%nat else None)
         640 480.

(** A host on which everything succeeds. *)
Definition goodHost : Host := sampleHost true true true true.

(** The world transform [main] builds. *)
Definition toWorld0 : Mat4 :=
  mkMat4 1 0 0 0
         0 1 0 0
         0 0 1 0
         0 0 (-6) 1.

(** A world with one typed array (reference 0) and one pending callback. *)
Definition sampleWorld : World :=
  mkWorld (store 0%nat toWorld0 (fun _ => zeroMat4)) 1%nat [] [] [] None 1%nat [].

Definition sampleProgramInfo : Animated.ProgramInfo :=
  Animated.mkProgramInfo (Some 0%nat)
    (Animated.mkAttribLocations 0 1)
    (Animated.mkUniformLocations (Some 0%nat) (Some 1%nat)).

Definition sampleClosure (start : option R) (last : R) : Animated.Closure :=
  Animated.mkClosure sampleProgramInfo (Animated.mkBuffers 0%nat 1%nat) 0%nat
                     start last 0.
(** The closure as [animateScene] creates it, and as it stands ten and
    twenty seconds after a first callback at 1000 ms. *)
Definition closureFresh : Animated.Closure := sampleClosure None 0.
Definition closureAt10s : Animated.Closure := sampleClosure (Some 1000) 9.9.
Definition closureAt20s : Animated.Closure := sampleClosure (Some 1000) 19.9.

(** A page whose canvas gives no WebGL context. *)
Definition noContextHost : Host :=
  mkHost false true (fun _ _ => true) (fun _ _ => ""%string) (fun _ _ => true)
         (fun _ _ => ""%string) (fun _ _ => 0%Z) (fun _ _ => None) 640 480.

Definition isAlert (e : Event) : bool :=
  match e with Alert _ => true | _ => false end.

(** A matrix applied to a column vector (x, y, z, w), column-major. *)
Definition transform (m : Mat4) (v : R * R * R * R) : R * R * R * R :=
  let '(x, y, z, w) := v in
  (e0 m * x + e4 m * y + e8 m * z + e12 m * w,
   e1 m * x + e5 m * y + e9 m * z + e13 m * w,
   e2 m * x + e6 m * y + e10 m * z + e14 m * w,
   e3 m * x + e7 m * y + e11 m * z + e15 m * w).

(** A rigid motion: the bottom row is (0,0,0,1) and the first three
    columns are orthonormal (no scale, no shear). *)
Definition rigid (m : Mat4) : Prop :=
  e3 m = 0 /\ e7 m = 0 /\ e11 m = 0 /\ e15 m = 1 /\
  e0 m * e0 m + e1 m * e1 m + e2 m * e2 m = 1 /\
  e4 m * e4 m + e5 m * e5 m + e6 m * e6 m = 1 /\
  e8 m * e8 m + e9 m * e9 m + e10 m * e10 m = 1 /\
  e0 m * e4 m + e1 m * e5 m + e2 m * e6 m = 0 /\
  e0 m * e8 m + e1 m * e9 m + e2 m * e10 m = 0 /\
  e4 m * e8 m + e5 m * e9 m + e6 m * e10 m = 0.

(** [gl_Position] of the vertex shader [SHADER_VERTEX] for a vertex of the
    position buffer:
    [Projection * ModelView * vec4(Vertex.x, Vertex.y, Vertex.z, 1.0)].
    [drawScene] feeds the attribute two components per vertex, which
    leaves [Vertex.z] at 0. *)
Definition glPosition (projection modelView : Mat4) (vertex : R * R) : R * R * R * R :=
  transform (mat4v.multiply projection modelView) (fst vertex, snd vertex, 0, 1).

(** The vertices a draw call reads from a buffer bound with two
    components per vertex. *)
Definition verticesOf (w : World) (buffer : WebGLBuffer) : list (R * R) :=
  match nth_error (buffers w) buffer with
  | Some o => pairs (buf_data o)
  | None => []
  end.

(** Clip coordinates in front of the camera and between the near and the
    far plane: [-w <= z <= w] with [w] positive. *)
Definition inDepthRange (p : R * R * R * R) : Prop :=
  let '(_, _, z, w) := p in 0 < w /\ - w <= z <= w.

(** ** Facts about the mat4 arithmetic *)

Lemma Mat4_ext (a b : Mat4) :
  e0 a = e0 b -> e1 a = e1 b -> e2 a = e2 b -> e3 a = e3 b ->
  e4 a = e4 b -> e5 a = e5 b -> e6 a = e6 b -> e7 a = e7 b ->
  e8 a = e8 b -> e9 a = e9 b -> e10 a = e10 b -> e11 a = e11 b ->
  e12 a = e12 b -> e13 a = e13 b -> e14 a = e14 b -> e15 a = e15 b ->
  a = b.
Proof.
  destruct a, b; cbn [e0 e1 e2 e3 e4 e5 e6 e7 e8 e9 e10 e11 e12 e13 e14 e15].
  intros; subst; reflexivity.
Qed.

(** Slot-wise equality of two explicit matrices, each slot by [ring]. *)
Ltac mat4_eq :=
  apply Mat4_ext;
  cbv [mat4v.multiply mat4v.identity mat4v.translate mat4v.scale rotZ rotY rotX
       e0 e1 e2 e3 e4 e5 e6 e7 e8 e9 e10 e11 e12 e13 e14 e15];
  try ring.

Lemma multiply_identity_r (a : Mat4) : mat4v.multiply a mat4v.identity = a.
Proof. destruct a; mat4_eq. Qed.

Lemma multiply_assoc (a b c : Mat4) :
  mat4v.multiply (mat4v.multiply a b) c = mat4v.multiply a (mat4v.multiply b c).
Proof. destruct a, b, c; mat4_eq. Qed.

Lemma unit_axis_len : sqrt (0 * 0 + 0 * 0 + 1 * 1) = 1.
Proof. replace (0 * 0 + 0 * 0 + 1 * 1) with 1 by ring. apply sqrt_1. Qed.

Lemma EPSILON_lt_1 : glMatrix.EPSILON < 1.
Proof. unfold glMatrix.EPSILON. lra. Qed.

Lemma unit_axis_len_y : sqrt (0 * 0 + 1 * 1 + 0 * 0) = 1.
Proof. replace (0 * 0 + 1 * 1 + 0 * 0) with 1 by ring. apply sqrt_1. Qed.

Lemma unit_axis_len_x : sqrt (1 * 1 + 0 * 0 + 0 * 0) = 1.
Proof. replace (1 * 1 + 0 * 0 + 0 * 0) with 1 by ring. apply sqrt_1. Qed.

(** [mat4.rotate] about a coordinate axis is a product with the textbook
    rotation matrix on the right. *)
Ltac rotate_axis Hlen :=
  unfold mat4v.rotate, mat4v.rotationBlock;
  rewrite Hlen;
  destruct (Rlt_dec 1 glMatrix.EPSILON) as [Hlt | _];
  [ pose proof EPSILON_lt_1; lra | ];
  replace (1 / 1) with 1 by lra;
  f_equal; mat4_eq.

Lemma rotate_Z (a : Mat4) (rad : R) :
  mat4v.rotate a rad (0, 0, 1) = Some (mat4v.multiply a (rotZ rad)).
Proof. rotate_axis unit_axis_len. Qed.

Lemma rotate_Y (a : Mat4) (rad : R) :
  mat4v.rotate a rad (0, 1, 0) = Some (mat4v.multiply a (rotY rad)).
Proof. rotate_axis unit_axis_len_y. Qed.

Lemma rotate_X (a : Mat4) (rad : R) :
  mat4v.rotate a rad (1, 0, 0) = Some (mat4v.multiply a (rotX rad)).
Proof. rotate_axis unit_axis_len_x. Qed.

Lemma rotZ_plus (a b : R) : mat4v.multiply (rotZ a) (rotZ b) = rotZ (a + b).
Proof.
  apply Mat4_ext;
  cbv [mat4v.multiply rotZ e0 e1 e2 e3 e4 e5 e6 e7 e8 e9 e10 e11 e12 e13 e14 e15];
  rewrite ?cos_plus, ?sin_plus; ring.
Qed.

Lemma rotZ_0 : rotZ 0 = mat4v.identity.
Proof. unfold rotZ. rewrite cos_0, sin_0. mat4_eq. Qed.

(** A product with a rotation matrix keeps the fourth column. *)
Lemma column3_rotZ (a : Mat4) (rad : R) :
  column3 (mat4v.multiply a (rotZ rad)) = column3 a.
Proof.
  destruct a. unfold column3.
  cbv [mat4v.multiply rotZ e12 e13 e14 e15].
  repeat f_equal; ring.
Qed.

Lemma column3_rotY (a : Mat4) (rad : R) :
  column3 (mat4v.multiply a (rotY rad)) = column3 a.
Proof.
  destruct a. unfold column3.
  cbv [mat4v.multiply rotY e12 e13 e14 e15].
  repeat f_equal; ring.
Qed.

Lemma column3_rotX (a : Mat4) (rad : R) :
  column3 (mat4v.multiply a (rotX rad)) = column3 a.
Proof.
  destruct a. unfold column3.
  cbv [mat4v.multiply rotX e12 e13 e14 e15].
  repeat f_equal; ring.
Qed.

(** The fourth column of each rotation matrix is (0,0,0,1). *)
Lemma column3_rotations (rad : R) :
  column3 (rotZ rad) = (0, 0, 0, 1) /\
  column3 (rotY rad) = (0, 0, 0, 1) /\
  column3 (rotX rad) = (0, 0, 0, 1).
Proof. repeat split. Qed.

Lemma column3_animated (W : Mat4) (progress delta : R) :
  column3 (animated W progress delta) = column3 W.
Proof.
  unfold animated.
  destruct (Rlt_dec progress Animated.singleRotation).
  - apply column3_rotZ.
  - destruct (Rlt_dec progress (2 * Animated.singleRotation)).
    + rewrite column3_rotX, column3_rotY. apply column3_rotZ.
    + reflexivity.
Qed.

(** The setup transform: scale by one, rotate by zero, move back by six. *)
Lemma toWorld0_built :
  mat4v.rotate (mat4v.scale mat4v.identity (1, 1, 1)) 0 (0, 0, 1) = Some mat4v.identity
  /\ mat4v.translate mat4v.identity (0, 0, -6) = toWorld0.
Proof.
  split.
  - rewrite rotate_Z, rotZ_0, multiply_identity_r. f_equal. mat4_eq.
  - unfold toWorld0. mat4_eq.
Qed.

Lemma singleRotation_bounds : 6000 < Animated.singleRotation <= 8000.
Proof.
  unfold Animated.singleRotation.
  pose proof PI_4. pose proof PI2_3_2. lra.
Qed.

Lemma store_eq (r : Ref) (m : Mat4) (h : Ref -> Mat4) : store r m h r = m.
Proof. unfold store. rewrite Nat.eqb_refl. reflexivity. Qed.

Lemma store_neq (r r' : Ref) (m : Mat4) (h : Ref -> Mat4) :
  r' <> r -> store r m h r' = h r'.
Proof.
  intros Hne. unfold store.
  destruct (Nat.eqb_spec r' r) as [Heq | _]; [contradiction | reflexivity].
Qed.

(** ** Running the embedded program symbolically *)

(** Unfolds the program, the host interface and the state accessors, and
    nothing of the real numbers. *)
Ltac js_eval :=
  cbv beta iota zeta delta
    [bind ret throw emit getW modifyW alert requestAnimationFrame returned trace
     fst snd rev app List.length nth_error setNth negb andb orb ShaderType_eqb
     with_heap with_shaders with_programs with_buffers with_binding with_rafPending
     with_event
     heap heapNext shaders programs buffers arrayBufferBinding rafPending events World0
     sh_type sh_source sh_compiled pr_attached pr_linked buf_data buf_usage
     mat4.create mat4.write mat4.read mat4.multiply mat4.rotate mat4.translate
     mat4.scale mat4.perspective
     gl.nullArgument gl.createShader gl.shaderSource gl.compileShader
     gl.getShaderParameter gl.getShaderInfoLog gl.deleteShader gl.createProgram
     gl.attachShader gl.compiledStage gl.linkStatus gl.linkProgram
     gl.getProgramParameter gl.getProgramInfoLog gl.isLinked
     gl.getAttribLocation gl.getUniformLocation gl.createBuffer gl.bindBuffer
     gl.bufferData gl.clearColor gl.clearDepth gl.enable gl.depthFunc gl.clear
     gl.vertexAttribPointer gl.enableVertexAttribArray gl.useProgram
     gl.uniformMatrix4fv gl.drawArrays
     Static.loadShader Static.initShader Static.initBuffers Static.drawScene Static.main
     Static.program Static.attribLocations Static.uniformLocations
     Static.vertexPosition Static.projectionMatrix Static.modelViewMatrix
     Static.position
     Animated.loadShader Animated.initShaderProgram Animated.initBuffers
     Animated.drawScene Animated.animateScene Animated.main Animated.frame
     Animated.program Animated.attribLocations Animated.uniformLocations
     Animated.vertexPosition Animated.vertexColor
     Animated.projectionMatrix Animated.modelViewMatrix
     Animated.position Animated.color
     Animated.programInfo Animated.buffers Animated.toWorld Animated.start
     Animated.last Animated.rotationCount
     isDrawArrays isBufferData isRequestAnimationFrame drawCount uniformsSent filter
     hd_error].

(** The same for a run on one of the sample hosts. *)
Ltac js_eval_sample :=
  js_eval;
  cbv beta iota zeta delta
    [hasContext strictNull compiles shaderInfoLog links programInfoLog
     attribLocation uniformLocation clientWidth clientHeight sampleHost goodHost];
  js_eval.

(** Case analysis on the next answer of the host the run depends on. *)
Ltac host_case :=
  match goal with
  | |- context [match compiles ?h ?t ?s with true => _ | false => _ end] =>
      destruct (compiles h t s) eqn:?
  | |- context [match links ?h ?v ?f with true => _ | false => _ end] =>
      destruct (links h v f) eqn:?
  | |- context [match strictNull ?h with true => _ | false => _ end] =>
      destruct (strictNull h) eqn:?
  end.

(** Resolves the heap lookups left by [js_eval] when the references
    compared are distinct or identical. *)
Ltac heap_lookup :=
  repeat first
    [ rewrite store_eq
    | rewrite store_neq by lia ].

Section AnimatedFacts.

Variable host : Host.

  
Lemma drawScene_returns pi b tw w :
    fst (Animated.drawScene host pi b tw w) = Ok tt.
  Proof. destruct w, pi, b. reflexivity. Qed.

Lemma drawScene_heapNext pi b tw w :
    heapNext (snd (Animated.drawScene host pi b tw w)) = S (S (heapNext w)).
  Proof. destruct w, pi, b. reflexivity. Qed.

Lemma drawScene_rafPending pi b tw w :
    rafPending (snd (Animated.drawScene host pi b tw w)) = rafPending w.
  Proof. destruct w, pi, b. reflexivity. Qed.

Lemma drawScene_buffers pi b tw w :
    buffers (snd (Animated.drawScene host pi b tw w)) = buffers w.
  Proof. destruct w, pi, b. reflexivity. Qed.

  (** [drawScene] writes only the two arrays it allocates. *)
Lemma drawScene_heap pi b tw w r :
    (r < heapNext w)%nat ->
    heap (snd (Animated.drawScene host pi b tw w)) r = heap w r.
  Proof.
    destruct w, pi, b. js_eval. intros Hr.
    heap_lookup. reflexivity.
  Qed.

  (** The calls of one [drawScene], newest first. *)
Lemma drawScene_events pi b tw w :
    (tw < heapNext w)%nat ->
    events (snd (Animated.drawScene host pi b tw w)) =
      DrawArrays TRIANGLE_STRIP 0 4
      :: UniformMatrix4fv (Animated.modelViewMatrix (Animated.uniformLocations pi)) false
           (mat4v.multiply (heap w tw) mat4v.identity)
      :: UniformMatrix4fv (Animated.projectionMatrix (Animated.uniformLocations pi)) false
           (mat4v.perspective (45 * PI / 180) (gl.canvasAspect host) 0.1 100)
      :: UseProgram (Animated.program pi)
      :: EnableVertexAttribArray (Animated.vertexColor (Animated.attribLocations pi))
      :: VertexAttribPointer (Animated.vertexColor (Animated.attribLocations pi))
           4 FLOAT false 0 0
      :: BindBuffer ARRAY_BUFFER (Animated.color b)
      :: EnableVertexAttribArray (Animated.vertexPosition (Animated.attribLocations pi))
      :: VertexAttribPointer (Animated.vertexPosition (Animated.attribLocations pi))
           2 FLOAT false 0 0
      :: BindBuffer ARRAY_BUFFER (Animated.position b)
      :: Clear (Z.lor COLOR_BUFFER_BIT DEPTH_BUFFER_BIT)
      :: DepthFunc LEQUAL
      :: Enable DEPTH_TEST
      :: ClearDepth 1
      :: ClearColor 0 0 0 1
      :: events w.
  Proof.
    destruct w, pi as [? [? ?] [? ?]], b. js_eval. intros Htw.
    heap_lookup. reflexivity.
  Qed.

Lemma animate_returns tw progress delta w :
    fst (Animated.animate tw progress delta w) = Ok tt.
  Proof.
    unfold Animated.animate.
    destruct (Rlt_dec progress Animated.singleRotation);
      [| destruct (Rlt_dec progress (2 * Animated.singleRotation))];
      js_eval; rewrite ?rotate_Z; js_eval; rewrite ?rotate_Y; js_eval;
      rewrite ?rotate_X; reflexivity.
  Qed.

  (** What [animate] leaves in the array [toWorld]. *)
Lemma animate_heap tw progress delta w :
    heap (snd (Animated.animate tw progress delta w)) tw =
      animated (heap w tw) progress delta.
  Proof.
    unfold Animated.animate, animated. destruct w.
    destruct (Rlt_dec progress Animated.singleRotation);
      [| destruct (Rlt_dec progress (2 * Animated.singleRotation))];
      js_eval; rewrite ?rotate_Z; js_eval; heap_lookup;
      rewrite ?rotate_Y; js_eval; heap_lookup;
      rewrite ?rotate_X; js_eval; heap_lookup; reflexivity.
  Qed.

  (** [animate] touches nothing but the heap, and allocates nothing. *)
Lemma animate_frame tw progress delta w :
    let w' := snd (Animated.animate tw progress delta w) in
    heapNext w' = heapNext w /\ rafPending w' = rafPending w /\
    buffers w' = buffers w /\ events w' = events w.
  Proof.
    unfold Animated.animate. destruct w.
    destruct (Rlt_dec progress Animated.singleRotation);
      [| destruct (Rlt_dec progress (2 * Animated.singleRotation))];
      js_eval; rewrite ?rotate_Z; js_eval; heap_lookup;
      rewrite ?rotate_Y; js_eval; heap_lookup;
      rewrite ?rotate_X; js_eval; repeat split.
  Qed.

End AnimatedFacts.

Lemma run_ok {A : Type} (m : M A) (w : World) (a : A) :
  fst (m w) = Ok a -> m w = (Ok a, snd (m w)).
Proof. destruct (m w) as [r w']. cbn. intros ->. reflexivity. Qed.

Lemma bind_run {A B : Type} (m : M A) (k : A -> M B) (w w1 : World) (a : A) :
  m w = (Ok a, w1) -> bind m k w = k a w1.
Proof. unfold bind. intros ->. reflexivity. Qed.

Lemma heap_with_rafPending n w : heap (with_rafPending n w) = heap w.
Proof. reflexivity. Qed.
Lemma heap_with_event e w : heap (with_event e w) = heap w.
Proof. reflexivity. Qed.
Lemma heapNext_with_rafPending n w : heapNext (with_rafPending n w) = heapNext w.
Proof. reflexivity. Qed.
Lemma heapNext_with_event e w : heapNext (with_event e w) = heapNext w.
Proof. reflexivity. Qed.
Lemma buffers_with_rafPending n w : buffers (with_rafPending n w) = buffers w.
Proof. reflexivity. Qed.
Lemma buffers_with_event e w : buffers (with_event e w) = buffers w.
Proof. reflexivity. Qed.
Lemma rafPending_with_rafPending n w : rafPending (with_rafPending n w) = n.
Proof. reflexivity. Qed.
Lemma events_with_rafPending n w : events (with_rafPending n w) = events w.
Proof. reflexivity. Qed.
Lemma events_with_event e w : events (with_event e w) = e :: events w.
Proof. reflexivity. Qed.

(** The end of [step]: request the next frame, return the closure. *)
Lemma step_tail {A : Type} (a : A) (w : World) :
  bind requestAnimationFrame (fun _ => ret a) w =
    (Ok a, with_rafPending (S (rafPending w)) (with_event RequestAnimationFrame w)).
Proof. destruct w. reflexivity. Qed.

Section StepFacts.

Variable host : Host.

(** One callback, in terms of its three phases. *)
Lemma step_unfold c t w :
  Animated.step host c t w =
    (Ok (nextClosure c t),
     with_rafPending
       (S (rafPending
             (snd (Animated.drawScene host (Animated.programInfo c) (Animated.buffers c)
                     (Animated.toWorld c)
                     (snd (Animated.animate (Animated.toWorld c)
                             (Animated.progressOf c t) (Animated.deltaOf c t) w))))))
       (with_event RequestAnimationFrame
          (snd (Animated.drawScene host (Animated.programInfo c) (Animated.buffers c)
                  (Animated.toWorld c)
                  (snd (Animated.animate (Animated.toWorld c)
                          (Animated.progressOf c t) (Animated.deltaOf c t) w)))))).
Proof.
  unfold Animated.step.
  rewrite (bind_run _ _ w _ tt (run_ok _ _ _ (animate_returns _ _ _ _))).
  rewrite (bind_run _ _ _ _ tt (run_ok _ _ _ (drawScene_returns host _ _ _ _))).
  apply step_tail.
Qed.

Lemma step_returns c t w :
  fst (Animated.step host c t w) = Ok (nextClosure c t).
Proof. rewrite step_unfold. reflexivity. Qed.

Lemma step_snd c t w :
  snd (Animated.step host c t w) =
     with_rafPending
       (S (rafPending
             (snd (Animated.drawScene host (Animated.programInfo c) (Animated.buffers c)
                     (Animated.toWorld c)
                     (snd (Animated.animate (Animated.toWorld c)
                             (Animated.progressOf c t) (Animated.deltaOf c t) w))))))
       (with_event RequestAnimationFrame
          (snd (Animated.drawScene host (Animated.programInfo c) (Animated.buffers c)
                  (Animated.toWorld c)
                  (snd (Animated.animate (Animated.toWorld c)
                          (Animated.progressOf c t) (Animated.deltaOf c t) w))))).
Proof. rewrite step_unfold. reflexivity. Qed.

Lemma step_heap c t w :
  (Animated.toWorld c < heapNext w)%nat ->
  heap (snd (Animated.step host c t w)) (Animated.toWorld c) =
    animated (heap w (Animated.toWorld c)) (Animated.progressOf c t) (Animated.deltaOf c t).
Proof.
  intros Htw. rewrite step_snd, heap_with_rafPending, heap_with_event.
  rewrite drawScene_heap.
  - apply animate_heap.
  - destruct (animate_frame (Animated.toWorld c) (Animated.progressOf c t)
                            (Animated.deltaOf c t) w) as [-> _].
    exact Htw.
Qed.

Lemma step_heapNext c t w :
  heapNext (snd (Animated.step host c t w)) = S (S (heapNext w)).
Proof.
  rewrite step_snd, heapNext_with_rafPending, heapNext_with_event.
  rewrite drawScene_heapNext.
  destruct (animate_frame (Animated.toWorld c) (Animated.progressOf c t)
                          (Animated.deltaOf c t) w) as [-> _].
  reflexivity.
Qed.

Lemma step_rafPending c t w :
  rafPending (snd (Animated.step host c t w)) = S (rafPending w).
Proof.
  rewrite step_snd, rafPending_with_rafPending.
  rewrite drawScene_rafPending.
  destruct (animate_frame (Animated.toWorld c) (Animated.progressOf c t)
                          (Animated.deltaOf c t) w) as (_ & -> & _).
  reflexivity.
Qed.

Lemma step_buffers c t w :
  buffers (snd (Animated.step host c t w)) = buffers w.
Proof.
  rewrite step_snd, buffers_with_rafPending, buffers_with_event.
  rewrite drawScene_buffers.
  destruct (animate_frame (Animated.toWorld c) (Animated.progressOf c t)
                          (Animated.deltaOf c t) w) as (_ & _ & -> & _).
  reflexivity.
Qed.

(** The calls of one callback: those of [drawScene], then the request for
    the next frame. *)
Lemma step_events c t w :
  (Animated.toWorld c < heapNext w)%nat ->
  exists drawSceneCalls,
    events (snd (Animated.step host c t w)) =
      RequestAnimationFrame :: DrawArrays TRIANGLE_STRIP 0 4
      :: UniformMatrix4fv
           (Animated.modelViewMatrix (Animated.uniformLocations (Animated.programInfo c)))
           false
           (mat4v.multiply (heap (snd (Animated.step host c t w)) (Animated.toWorld c))
                           mat4v.identity)
      :: drawSceneCalls ++ events w
    /\ drawCount drawSceneCalls = 0%nat
    /\ filter isBufferData drawSceneCalls = []
    /\ List.length (uniformsSent drawSceneCalls) = 1%nat.
Proof.
  intros Htw.
  pose proof (animate_frame (Animated.toWorld c) (Animated.progressOf c t)
                            (Animated.deltaOf c t) w) as (Hn & _ & _ & Hev).
  cbv zeta in Hn, Hev.
  rewrite step_heap by exact Htw.
  rewrite step_snd, events_with_rafPending, events_with_event.
  rewrite drawScene_events by (rewrite Hn; exact Htw).
  rewrite animate_heap, Hev.
  eexists (_ :: _ :: _ :: _ :: _ :: _ :: _ :: _ :: _ :: _ :: _ :: _ :: _ :: []).
  split; [reflexivity | repeat split].
Qed.

(** The scheduler's dispatch of a pending callback is one [step]. *)
Lemma frame_pending c t w :
  (0 < rafPending w)%nat ->
  Animated.frame host c t w =
    Animated.step host c t (with_rafPending (pred (rafPending w)) w).
Proof.
  intros Hp. unfold Animated.frame, bind, getW, modifyW.
  destruct (rafPending w) as [| n] eqn:E; [lia |]. reflexivity.
Qed.

Lemma frame_idle c t w :
  rafPending w = 0%nat -> Animated.frame host c t w = (Ok c, w).
Proof.
  intros Hp. unfold Animated.frame, bind, getW. rewrite Hp. reflexivity.
Qed.

End StepFacts.

(** ** Runs of callbacks *)

Section FramesFacts.

Variable host : Host.

(** A run of callbacks, while one is pending at its start: every callback
    returns, the array [toWorld] follows [worldTransformAfter], the
    buffers are untouched and a callback is pending again at the end. *)
Lemma frames_facts ts : forall c w,
  (Animated.toWorld c < heapNext w)%nat ->
  (0 < rafPending w)%nat ->
  fst (Animated.frames host c ts w) = Ok (closureAfter c ts) /\
  heap (snd (Animated.frames host c ts w)) (Animated.toWorld c) =
    worldTransformAfter (heap w (Animated.toWorld c)) c ts /\
  (Animated.toWorld c < heapNext (snd (Animated.frames host c ts w)))%nat /\
  rafPending (snd (Animated.frames host c ts w)) = rafPending w /\
  buffers (snd (Animated.frames host c ts w)) = buffers w.
Proof.
  induction ts as [| t rest IH]; intros c w Htw Hp.
  - cbn. repeat split; assumption.
  - cbn [Animated.frames closureAfter worldTransformAfter].
    pose (w0 := with_rafPending (pred (rafPending w)) w).
    assert (Hstep : Animated.frame host c t w =
                    (Ok (nextClosure c t), snd (Animated.step host c t w0))).
    { rewrite frame_pending by exact Hp. apply run_ok. apply step_returns. }
    rewrite (bind_run _ _ _ _ _ Hstep).
    assert (Htw0 : (Animated.toWorld c < heapNext w0)%nat) by exact Htw.
    destruct (IH (nextClosure c t) (snd (Animated.step host c t w0)))
      as (Hr & Hh & Hn & Hraf & Hb).
    + cbn [nextClosure Animated.toWorld]. rewrite step_heapNext. lia.
    + rewrite step_rafPending. lia.
    + cbn [nextClosure Animated.toWorld] in Hh, Hn.
      rewrite Hr, Hh, Hraf, Hb.
      rewrite step_heap by exact Htw0.
      rewrite step_rafPending, step_buffers.
      unfold w0. rewrite heap_with_rafPending, buffers_with_rafPending,
        rafPending_with_rafPending.
      repeat split; try assumption. lia.
Qed.

(** Without a pending callback the scheduler runs nothing. *)
Lemma frames_idle ts : forall c w,
  rafPending w = 0%nat -> Animated.frames host c ts w = (Ok c, w).
Proof.
  induction ts as [| t rest IH]; intros c w Hp; [reflexivity |].
  cbn [Animated.frames].
  rewrite (bind_run _ _ _ _ _ (frame_idle host c t w Hp)).
  apply IH. exact Hp.
Qed.

End FramesFacts.

Lemma column3_worldTransformAfter ts : forall W c,
  column3 (worldTransformAfter W c ts) = column3 W.
Proof.
  induction ts as [| t rest IH]; intros W c; [reflexivity |].
  cbn [worldTransformAfter]. rewrite IH. apply column3_animated.
Qed.

(** The deltas of a run telescope: their sum is the change of [last]. *)
Lemma Rsum_deltas ts : forall c,
  Rsum (deltas c ts) = Animated.last (closureAfter c ts) - Animated.last c.
Proof.
  induction ts as [| t rest IH]; intros c.
  - cbn. lra.
  - cbn [deltas Rsum closureAfter]. rewrite IH.
    unfold Animated.deltaOf. cbn [nextClosure Animated.last]. lra.
Qed.

Lemma last_cons {A : Type} (l : list A) : forall x d,
  List.last (x :: l) d = List.last l x.
Proof.
  induction l as [| y l IH]; intros x d; [reflexivity |].
  change (List.last (x :: y :: l) d) with (List.last (y :: l) d).
  rewrite !IH. reflexivity.
Qed.

(** [last] holds the latest elapsed time, in seconds. *)
Lemma last_closureAfter ts : forall c,
  Animated.last (closureAfter c ts) =
    List.last (progresses c ts) (Animated.last c * 1000) * 0.001.
Proof.
  induction ts as [| t rest IH]; intros c.
  - cbn. lra.
  - cbn [closureAfter progresses]. rewrite IH, last_cons.
    cbn [nextClosure Animated.last].
    replace (Animated.progressOf c t * 0.001 * 1000) with (Animated.progressOf c t) by lra.
    reflexivity.
Qed.

(** While the elapsed time stays below one rotation, the run multiplies
    the world transform by one Z rotation by the sum of the deltas. *)
Lemma worldTransformAfter_first_phase ts : forall W c,
  Forall (fun p => p < Animated.singleRotation) (progresses c ts) ->
  worldTransformAfter W c ts = mat4v.multiply W (rotZ (Rsum (deltas c ts))).
Proof.
  induction ts as [| t rest IH]; intros W c Hall.
  - cbn [worldTransformAfter deltas Rsum].
    rewrite rotZ_0, multiply_identity_r. reflexivity.
  - cbn [progresses] in Hall. inversion Hall as [| p l Hp Hrest]; subst.
    cbn [worldTransformAfter deltas Rsum].
    rewrite IH by exact Hrest.
    unfold animated.
    destruct (Rlt_dec (Animated.progressOf c t) Animated.singleRotation) as [_ | Hn];
      [| contradiction].
    rewrite multiply_assoc, rotZ_plus. reflexivity.
Qed.

(** [rotZ], [rotY], [rotX] are gl-matrix's own rotation matrices. *)
Lemma fromRotation_axes (rad : R) :
  mat4v.fromRotation rad (0, 0, 1) = Some (rotZ rad) /\
  mat4v.fromRotation rad (0, 1, 0) = Some (rotY rad) /\
  mat4v.fromRotation rad (1, 0, 0) = Some (rotX rad).
Proof.
  unfold mat4v.fromRotation, mat4v.rotationBlock.
  rewrite unit_axis_len, unit_axis_len_y, unit_axis_len_x.
  destruct (Rlt_dec 1 glMatrix.EPSILON) as [Hlt | _];
    [ pose proof EPSILON_lt_1; lra | ].
  replace (1 / 1) with 1 by lra.
  repeat split; f_equal; mat4_eq.
Qed.

(** The three rotations do not commute: a quarter turn about Z, Y, X in
    that order differs from the same turns in the opposite order. *)
Lemma rotation_order_matters :
  mat4v.multiply (mat4v.multiply (rotZ (PI / 2)) (rotY (PI / 2))) (rotX (PI / 2)) <>
  mat4v.multiply (mat4v.multiply (rotX (PI / 2)) (rotY (PI / 2))) (rotZ (PI / 2)).
Proof.
  intros Heq. apply (f_equal e5) in Heq. revert Heq.
  cbv [mat4v.multiply rotZ rotY rotX
       e0 e1 e2 e3 e4 e5 e6 e7 e8 e9 e10 e11 e12 e13 e14 e15].
  rewrite cos_PI2, sin_PI2. lra.
Qed.

Lemma startAfter_null (t : R) : Animated.startAfter None t = t.
Proof. reflexivity. Qed.

Lemma startAfter_nonzero (s t : R) : s <> 0 -> Animated.startAfter (Some s) t = s.
Proof.
  intros Hs. unfold Animated.startAfter.
  destruct (Req_dec_T s 0) as [Heq | _]; [contradiction | reflexivity].
Qed.

Lemma startAfter_zero (t : R) : Animated.startAfter (Some 0) t = t.
Proof.
  unfold Animated.startAfter.
  destruct (Req_dec_T 0 0) as [_ | Hne]; [reflexivity | contradiction Hne; reflexivity].
Qed.

(** Unfolds the closure variables of a concrete run. *)
Ltac closure_eval :=
  cbv beta iota zeta delta
    [progresses deltas closureAfter nextClosure closureFresh closureAt10s closureAt20s
     sampleClosure Animated.progressOf Animated.deltaOf Animated.start Animated.last
     List.last Rsum].

(** [start] keeps its value once it is a nonzero number. *)
Lemma start_nextClosure_nonzero c s t :
  Animated.start c = Some s -> s <> 0 -> Animated.start (nextClosure c t) = Some s.
Proof.
  intros Hs Hne. unfold nextClosure. cbn [Animated.start].
  rewrite Hs, startAfter_nonzero by exact Hne. reflexivity.
Qed.

(** Once [start] is a nonzero number, the elapsed time of a callback is
    its timestamp minus [start]. *)
Lemma progresses_since_start ts : forall c s,
  Animated.start c = Some s -> s <> 0 ->
  progresses c ts = map (fun t => t - s) ts.
Proof.
  induction ts as [| t rest IH]; intros c s Hs Hne; [reflexivity |].
  cbn [progresses map].
  rewrite (IH (nextClosure c t) s (start_nextClosure_nonzero c s t Hs Hne) Hne).
  unfold Animated.progressOf. rewrite Hs, startAfter_nonzero by exact Hne.
  reflexivity.
Qed.

(** From the start of the animation, the elapsed time is the time since
    the first callback, provided the first timestamp is not 0. *)
Lemma progresses_since_first_callback c t1 ts :
  Animated.start c = None -> t1 <> 0 ->
  progresses c (t1 :: ts) = map (fun t => t - t1) (t1 :: ts).
Proof.
  intros Hs Hne. cbn [progresses map].
  rewrite (progresses_since_start ts (nextClosure c t1) t1).
  - unfold Animated.progressOf. rewrite Hs, startAfter_null. reflexivity.
  - unfold nextClosure. cbn [Animated.start]. rewrite Hs, startAfter_null. reflexivity.
  - exact Hne.
Qed.

(** A first timestamp of 0 is falsy, so [start] is captured again by the
    next callback: the elapsed time then counts from the second one. *)
Lemma progresses_after_zero_timestamp :
  progresses closureFresh [0; 16; 33] = [0 - 0; 16 - 16; 33 - 16].
Proof.
  closure_eval.
  rewrite !startAfter_null, startAfter_zero.
  rewrite !(startAfter_nonzero 16) by lra.
  reflexivity.
Qed.

Lemma drawCount_app (l1 l2 : list Event) :
  drawCount (l1 ++ l2) = (drawCount l1 + drawCount l2)%nat.
Proof. unfold drawCount. rewrite filter_app, length_app. reflexivity. Qed.

(** No run of callbacks writes a buffer, pending callback or not. *)
Lemma frames_buffers host ts : forall c w,
  buffers (snd (Animated.frames host c ts w)) = buffers w.
Proof.
  induction ts as [| t rest IH]; intros c w; [reflexivity |].
  cbn [Animated.frames].
  destruct (rafPending w) as [| n] eqn:Hp.
  - rewrite (bind_run _ _ _ _ _ (frame_idle host c t w Hp)). apply IH.
  - assert (Hpos : (0 < rafPending w)%nat) by lia.
    rewrite (bind_run _ _ w
               (snd (Animated.step host c t (with_rafPending (pred (rafPending w)) w)))
               (nextClosure c t)).
    + rewrite IH, step_buffers. apply buffers_with_rafPending.
    + rewrite frame_pending by exact Hpos. apply run_ok. apply step_returns.
Qed.

(** No run of callbacks uploads buffer data. *)
Lemma frames_no_bufferData host ts : forall c w,
  (Animated.toWorld c < heapNext w)%nat ->
  filter isBufferData (events (snd (Animated.frames host c ts w))) =
    filter isBufferData (events w).
Proof.
  induction ts as [| t rest IH]; intros c w Htw; [reflexivity |].
  cbn [Animated.frames].
  destruct (rafPending w) as [| n] eqn:Hp.
  - rewrite (bind_run _ _ _ _ _ (frame_idle host c t w Hp)). apply IH. exact Htw.
  - assert (Hpos : (0 < rafPending w)%nat) by lia.
    rewrite (bind_run _ _ w
               (snd (Animated.step host c t (with_rafPending (pred (rafPending w)) w)))
               (nextClosure c t)).
    + rewrite IH.
      * destruct (step_events host c t (with_rafPending (pred (rafPending w)) w) Htw)
          as (calls & -> & _ & Hnb & _).
        cbn [filter isBufferData]. rewrite filter_app, Hnb. reflexivity.
      * cbn [nextClosure Animated.toWorld]. rewrite step_heapNext.
        rewrite heapNext_with_rafPending. lia.
    + rewrite frame_pending by exact Hpos. apply run_ok. apply step_returns.
Qed.

(** ** The animated frame callback *)

(** C3. In a callback whose elapsed time lies in [T1, 2*T1), with
    T1 = 360000*pi/180 ms, the world transform is multiplied on the right
    by three rotation matrices, about Z, then Y, then X, in that order,
    each by the delta time of the callback in seconds. *)
Theorem C3_second_phase_rotates_Z_Y_X host c t w :
  (Animated.toWorld c < heapNext w)%nat ->
  Animated.singleRotation <= Animated.progressOf c t < 2 * Animated.singleRotation ->
  Animated.singleRotation = 360000 * PI / 180 /\
  Animated.deltaOf c t = Animated.progressOf c t * 0.001 - Animated.last c /\
  heap (snd (Animated.step host c t w)) (Animated.toWorld c) =
    mat4v.multiply
      (mat4v.multiply
         (mat4v.multiply (heap w (Animated.toWorld c)) (rotZ (Animated.deltaOf c t)))
         (rotY (Animated.deltaOf c t)))
      (rotX (Animated.deltaOf c t)).
Proof.
  intros Htw [Hlo Hhi]. split; [reflexivity | split; [reflexivity |]].
  rewrite step_heap by exact Htw. unfold animated.
  destruct (Rlt_dec (Animated.progressOf c t) Animated.singleRotation) as [Hlt | _];
    [lra |].
  destruct (Rlt_dec (Animated.progressOf c t) (2 * Animated.singleRotation)) as [_ | Hn];
    [reflexivity | contradiction].
Qed.

Lemma C3_witness :
  (Animated.toWorld closureAt10s < heapNext sampleWorld)%nat /\
  Animated.singleRotation <= Animated.progressOf closureAt10s 11000
    < 2 * Animated.singleRotation /\
  heap (snd (Animated.step goodHost closureAt10s 11000 sampleWorld)) 0%nat =
    mat4v.multiply
      (mat4v.multiply
         (mat4v.multiply toWorld0
            (rotZ (Animated.deltaOf closureAt10s 11000)))
         (rotY (Animated.deltaOf closureAt10s 11000)))
      (rotX (Animated.deltaOf closureAt10s 11000)).
Proof.
  assert (Htw : (Animated.toWorld closureAt10s < heapNext sampleWorld)%nat).
  { cbn. lia. }
  assert (Hp : Animated.singleRotation
               <= Animated.progressOf closureAt10s 11000
               < 2 * Animated.singleRotation).
  { unfold Animated.progressOf. cbn [closureAt10s closureAt20s sampleClosure Animated.start].
    rewrite startAfter_nonzero by lra.
    pose proof singleRotation_bounds. lra. }
  split; [exact Htw | split; [exact Hp |]].
  exact (proj2 (proj2 (C3_second_phase_rotates_Z_Y_X goodHost
                         closureAt10s 11000 sampleWorld Htw Hp))).
Defined.

(** C5. In a callback whose elapsed time is at least 2*T1 the world
    transform is left exactly as it was; the callback still returns,
    issues one draw call and requests the next frame. *)
Theorem C5_frozen_after_two_rotations host c t w :
  (Animated.toWorld c < heapNext w)%nat ->
  2 * Animated.singleRotation <= Animated.progressOf c t ->
  heap (snd (Animated.step host c t w)) (Animated.toWorld c) = heap w (Animated.toWorld c) /\
  returned (Animated.step host c t w) = true /\
  drawCount (events (snd (Animated.step host c t w))) = S (drawCount (events w)) /\
  hd_error (events (snd (Animated.step host c t w))) = Some RequestAnimationFrame /\
  rafPending (snd (Animated.step host c t w)) = S (rafPending w).
Proof.
  intros Htw Hp. refine (conj _ (conj _ (conj _ (conj _ _)))).
  - rewrite step_heap by exact Htw. unfold animated.
    pose proof singleRotation_bounds.
    destruct (Rlt_dec (Animated.progressOf c t) Animated.singleRotation) as [Hlt | _];
      [lra |].
    destruct (Rlt_dec (Animated.progressOf c t) (2 * Animated.singleRotation)) as [Hlt | _];
      [lra | reflexivity].
  - unfold returned. rewrite step_returns. reflexivity.
  - destruct (step_events host c t w Htw) as (calls & -> & Hd & _).
    change (RequestAnimationFrame :: DrawArrays TRIANGLE_STRIP 0 4 :: ?u :: calls ++ events w)
      with ([RequestAnimationFrame; DrawArrays TRIANGLE_STRIP 0 4; u] ++ calls ++ events w).
    rewrite !drawCount_app, Hd. reflexivity.
  - destruct (step_events host c t w Htw) as (calls & -> & _). reflexivity.
  - apply step_rafPending.
Qed.

Lemma C5_witness :
  (Animated.toWorld closureAt20s < heapNext sampleWorld)%nat /\
  2 * Animated.singleRotation <= Animated.progressOf closureAt20s 21000 /\
  heap (snd (Animated.step goodHost closureAt20s 21000 sampleWorld)) 0%nat
    = toWorld0.
Proof.
  assert (Htw : (Animated.toWorld closureAt20s < heapNext sampleWorld)%nat).
  { cbn. lia. }
  assert (Hp : 2 * Animated.singleRotation
               <= Animated.progressOf closureAt20s 21000).
  { unfold Animated.progressOf. cbn [closureAt10s closureAt20s sampleClosure Animated.start].
    rewrite startAfter_nonzero by lra.
    pose proof singleRotation_bounds. lra. }
  split; [exact Htw | split; [exact Hp |]].
  exact (proj1 (C5_frozen_after_two_rotations goodHost
                  closureAt20s 21000 sampleWorld Htw Hp)).
Defined.

(** C9. On the first callback, [start] is still [null]: the callback sets
    it from its timestamp and returns with [start] = timestamp and
    [last] = 0; the elapsed time and the delta time it computes are 0, the
    rotation it applies is about Z by angle 0, and the world transform is
    unchanged. *)
Theorem C9_first_callback_leaves_world_transform host pi b tw t w :
  (tw < heapNext w)%nat ->
  fst (Animated.animateScene pi b tw w) = Ok (Animated.mkClosure pi b tw None 0 0) /\
  fst (Animated.step host (Animated.mkClosure pi b tw None 0 0) t w) =
    Ok (Animated.mkClosure pi b tw (Some t) 0 0) /\
  Animated.start (nextClosure (Animated.mkClosure pi b tw None 0 0) t) = Some t /\
  Animated.progressOf (Animated.mkClosure pi b tw None 0 0) t = 0 /\
  Animated.deltaOf (Animated.mkClosure pi b tw None 0 0) t = 0 /\
  animated (heap w tw) 0 0 = mat4v.multiply (heap w tw) (rotZ 0) /\
  heap (snd (Animated.step host (Animated.mkClosure pi b tw None 0 0) t w)) tw =
    mat4v.multiply (heap w tw) (rotZ 0) /\
  heap (snd (Animated.step host (Animated.mkClosure pi b tw None 0 0) t w)) tw = heap w tw.
Proof.
  intros Htw.
  assert (Hp : Animated.progressOf (Animated.mkClosure pi b tw None 0 0) t = 0).
  { unfold Animated.progressOf. cbn [Animated.start]. rewrite startAfter_null. lra. }
  assert (Hd : Animated.deltaOf (Animated.mkClosure pi b tw None 0 0) t = 0).
  { unfold Animated.deltaOf. rewrite Hp. cbn [Animated.last]. lra. }
  assert (Ha : animated (heap w tw) 0 0 = mat4v.multiply (heap w tw) (rotZ 0)).
  { unfold animated. pose proof singleRotation_bounds.
    destruct (Rlt_dec 0 Animated.singleRotation) as [_ | Hn]; [reflexivity | lra]. }
  assert (Hh : heap (snd (Animated.step host (Animated.mkClosure pi b tw None 0 0) t w)) tw =
               mat4v.multiply (heap w tw) (rotZ 0)).
  { pose proof (step_heap host (Animated.mkClosure pi b tw None 0 0) t w Htw) as Hs.
    cbn [Animated.toWorld] in Hs. rewrite Hs, Hp, Hd. exact Ha. }
  refine (conj _ (conj _ (conj _ (conj Hp (conj Hd (conj Ha (conj Hh _))))))).
  - destruct w. reflexivity.
  - rewrite step_returns. unfold nextClosure.
    cbn [Animated.programInfo Animated.buffers Animated.toWorld Animated.start
         Animated.rotationCount].
    rewrite Hp, startAfter_null.
    replace (0 * 0.001) with 0 by lra. reflexivity.
  - unfold nextClosure. cbn [Animated.start]. rewrite startAfter_null. reflexivity.
  - rewrite Hh, rotZ_0. apply multiply_identity_r.
Qed.

Lemma C9_witness :
  (0 < heapNext sampleWorld)%nat /\
  fst (Animated.step goodHost closureFresh 1000 sampleWorld) =
    Ok (Animated.mkClosure sampleProgramInfo (Animated.mkBuffers 0%nat 1%nat) 0%nat
          (Some 1000) 0 0) /\
  heap (snd (Animated.step goodHost closureFresh 1000 sampleWorld)) 0%nat = toWorld0.
Proof.
  assert (Htw : (0 < heapNext sampleWorld)%nat) by (cbn; lia).
  refine (conj Htw (conj _ _)).
  - exact (proj1 (proj2
      (C9_first_callback_leaves_world_transform goodHost sampleProgramInfo
         (Animated.mkBuffers 0%nat 1%nat) 0%nat 1000 sampleWorld Htw))).
  - exact (proj2 (proj2 (proj2 (proj2 (proj2 (proj2 (proj2
      (C9_first_callback_leaves_world_transform goodHost sampleProgramInfo
         (Animated.mkBuffers 0%nat 1%nat) 0%nat 1000 sampleWorld Htw)))))))).
Defined.

(** C8. The matrix [drawScene] uploads to the ModelView uniform is the
    product of the world transform with a fresh identity matrix, which is
    the world transform itself; [drawScene] leaves the world transform
    untouched.  So in every callback the ModelView uniform receives the
    world transform as the callback leaves it. *)
Theorem C8_modelview_is_world_transform host c t w :
  (Animated.toWorld c < heapNext w)%nat ->
  uniformsSent (events (snd (Animated.drawScene host (Animated.programInfo c)
                               (Animated.buffers c) (Animated.toWorld c) w))) =
    (Animated.modelViewMatrix (Animated.uniformLocations (Animated.programInfo c)),
     mat4v.multiply (heap w (Animated.toWorld c)) mat4v.identity)
    :: (Animated.projectionMatrix (Animated.uniformLocations (Animated.programInfo c)),
        mat4v.perspective (45 * PI / 180) (gl.canvasAspect host) 0.1 100)
    :: uniformsSent (events w) /\
  mat4v.multiply (heap w (Animated.toWorld c)) mat4v.identity = heap w (Animated.toWorld c) /\
  heap (snd (Animated.drawScene host (Animated.programInfo c) (Animated.buffers c)
               (Animated.toWorld c) w)) (Animated.toWorld c) = heap w (Animated.toWorld c) /\
  hd_error (uniformsSent (events (snd (Animated.step host c t w)))) =
    Some (Animated.modelViewMatrix (Animated.uniformLocations (Animated.programInfo c)),
          heap (snd (Animated.step host c t w)) (Animated.toWorld c)).
Proof.
  intros Htw. refine (conj _ (conj _ (conj _ _))).
  - rewrite drawScene_events by exact Htw. reflexivity.
  - apply multiply_identity_r.
  - apply drawScene_heap. exact Htw.
  - destruct (step_events host c t w Htw) as (calls & -> & _).
    cbn [uniformsSent hd_error]. rewrite multiply_identity_r. reflexivity.
Qed.

Lemma C8_witness :
  (Animated.toWorld closureAt10s < heapNext sampleWorld)%nat /\
  hd_error (uniformsSent (events (snd (Animated.drawScene goodHost
              (Animated.programInfo closureAt10s) (Animated.buffers closureAt10s)
              (Animated.toWorld closureAt10s) sampleWorld)))) =
    Some (Some 1%nat, toWorld0).
Proof.
  assert (Htw : (Animated.toWorld closureAt10s < heapNext sampleWorld)%nat) by (cbn; lia).
  split; [exact Htw |].
  rewrite (proj1 (C8_modelview_is_world_transform goodHost closureAt10s 11000
                    sampleWorld Htw)).
  cbn [hd_error]. rewrite multiply_identity_r. reflexivity.
Defined.

(** C4. While the elapsed time of every callback of a run stays below T1,
    each callback multiplies the world transform on the right by a Z
    rotation by its delta time, and the run as a whole by one Z rotation
    whose angle is the sum of the deltas; the deltas telescope, so for a
    run from the start of the animation that sum is the last elapsed time
    divided by 1000.  The elapsed time is the [progress] of the callback:
    its timestamp minus the first timestamp, when that one is not 0. *)
Theorem C4_first_phase_accumulates_Z_rotation host c ts w :
  (Animated.toWorld c < heapNext w)%nat ->
  (0 < rafPending w)%nat ->
  Forall (fun p => p < Animated.singleRotation) (progresses c ts) ->
  (forall t, Animated.progressOf c t < Animated.singleRotation ->
     heap (snd (Animated.step host c t w)) (Animated.toWorld c) =
       mat4v.multiply (heap w (Animated.toWorld c)) (rotZ (Animated.deltaOf c t))) /\
  fst (Animated.frames host c ts w) = Ok (closureAfter c ts) /\
  heap (snd (Animated.frames host c ts w)) (Animated.toWorld c) =
    mat4v.multiply (heap w (Animated.toWorld c)) (rotZ (Rsum (deltas c ts))) /\
  Rsum (deltas c ts) = Animated.last (closureAfter c ts) - Animated.last c /\
  (Animated.last c = 0 -> Rsum (deltas c ts) = List.last (progresses c ts) 0 / 1000) /\
  (forall t1 rest, Animated.start c = None -> t1 <> 0 -> ts = t1 :: rest ->
     progresses c ts = map (fun t => t - t1) ts).
Proof.
  intros Htw Hp Hall.
  destruct (frames_facts host ts c w Htw Hp) as (Hr & Hh & _).
  refine (conj _ (conj Hr (conj _ (conj (Rsum_deltas ts c) (conj _ _)))));
    [ | | | intros t1 rest Hs Hne ->; apply progresses_since_first_callback; assumption ].
  - intros t Ht. rewrite step_heap by exact Htw. unfold animated.
    destruct (Rlt_dec (Animated.progressOf c t) Animated.singleRotation) as [_ | Hn];
      [reflexivity | contradiction].
  - rewrite Hh. apply worldTransformAfter_first_phase. exact Hall.
  - intros Hc. rewrite Rsum_deltas, last_closureAfter, Hc.
    replace (0 * 1000) with 0 by lra. lra.
Qed.

Lemma C4_witness :
  (Animated.toWorld closureFresh < heapNext sampleWorld)%nat /\
  (0 < rafPending sampleWorld)%nat /\
  Forall (fun p => p < Animated.singleRotation) (progresses closureFresh [1000; 1016; 1033]) /\
  heap (snd (Animated.frames goodHost closureFresh [1000; 1016; 1033] sampleWorld)) 0%nat =
    mat4v.multiply toWorld0 (rotZ (Rsum (deltas closureFresh [1000; 1016; 1033]))) /\
  Rsum (deltas closureFresh [1000; 1016; 1033]) = 33 / 1000.
Proof.
  assert (Htw : (Animated.toWorld closureFresh < heapNext sampleWorld)%nat) by (cbn; lia).
  assert (Hp : (0 < rafPending sampleWorld)%nat) by (cbn; lia).
  assert (Hall : Forall (fun p => p < Animated.singleRotation)
                        (progresses closureFresh [1000; 1016; 1033])).
  { pose proof singleRotation_bounds.
    closure_eval.
    rewrite !startAfter_null; repeat (rewrite (startAfter_nonzero 1000) by lra).
    repeat constructor; lra. }
  pose proof (C4_first_phase_accumulates_Z_rotation goodHost closureFresh
                [1000; 1016; 1033] sampleWorld Htw Hp Hall) as (_ & _ & Hh & _ & Hs & _).
  refine (conj Htw (conj Hp (conj Hall (conj Hh _)))).
  rewrite Hs by reflexivity.
  closure_eval.
  rewrite !startAfter_null; repeat (rewrite (startAfter_nonzero 1000) by lra). lra.
Defined.

(** ** Setup of the animated variant *)

(** What [main] leaves behind when it gets as far as [animateScene]: the
    world transform is the first typed array, it holds the translation by
    (0,0,-6), and one callback is pending. *)
Lemma main_facts host c :
  fst (Animated.main host World0) = Ok (Some c) ->
  Animated.toWorld c = 0%nat /\
  Animated.start c = None /\ Animated.last c = 0 /\
  heap (snd (Animated.main host World0)) 0%nat = toWorld0 /\
  heapNext (snd (Animated.main host World0)) = 1%nat /\
  rafPending (snd (Animated.main host World0)) = 1%nat /\
  Animated.buffers c = Animated.mkBuffers 0%nat 1%nat /\
  buffers (snd (Animated.main host World0)) =
    [mkBufferObj [1; 1; -1; 1; 1; -1; -1; -1] (Some STATIC_DRAW);
     mkBufferObj [1; 1; 1; 1; 1; 0; 0; 1; 0; 1; 0; 1; 0; 0; 1; 1] (Some STATIC_DRAW)] /\
  filter isBufferData (events (snd (Animated.main host World0))) =
    [BufferData ARRAY_BUFFER [1; 1; 1; 1; 1; 0; 0; 1; 0; 1; 0; 1; 0; 0; 1; 1] STATIC_DRAW;
     BufferData ARRAY_BUFFER [1; 1; -1; 1; 1; -1; -1; -1] STATIC_DRAW].
Proof.
  remember (Animated.main host World0) as o eqn:Ho. revert Ho.
  unfold Animated.main.
  destruct (hasContext host) eqn:Hctx; cbn [negb].
  2:{ js_eval. intros -> H. discriminate H. }
  js_eval.
  repeat (host_case; js_eval).
  all: cbv [store Nat.eqb].
  all: rewrite ?(proj1 toWorld0_built).
  all: js_eval; cbv [store Nat.eqb].
  all: rewrite ?(proj2 toWorld0_built).
  all: intros ->; js_eval.
  all: try (intros H; discriminate H).
  all: intros H; inversion H; subst; clear H; js_eval; repeat split.
Qed.

(** C10. The fourth column of the world transform is (0,0,-6,1) when
    [main] hands over to the scheduler and after every callback: each
    update multiplies on the right by rotation matrices, whose fourth
    column is (0,0,0,1). *)
Theorem C10_translation_column_is_fixed host c ts :
  fst (Animated.main host World0) = Ok (Some c) ->
  column3 (heap (snd (Animated.main host World0)) (Animated.toWorld c)) = (0, 0, -6, 1) /\
  column3 (heap (snd (Animated.frames host c ts (snd (Animated.main host World0))))
                (Animated.toWorld c)) = (0, 0, -6, 1) /\
  (forall W progress delta, column3 (animated W progress delta) = column3 W) /\
  (forall rad, column3 (rotZ rad) = (0, 0, 0, 1) /\
               column3 (rotY rad) = (0, 0, 0, 1) /\
               column3 (rotX rad) = (0, 0, 0, 1)).
Proof.
  intros Hmain.
  destruct (main_facts host c Hmain) as (Htw & _ & _ & Hh & Hn & Hraf & _).
  assert (H0 : column3 (heap (snd (Animated.main host World0)) (Animated.toWorld c))
               = (0, 0, -6, 1)).
  { rewrite Htw, Hh. reflexivity. }
  refine (conj H0 (conj _ (conj column3_animated column3_rotations))).
  destruct (frames_facts host ts c (snd (Animated.main host World0)))
    as (_ & Hheap & _).
  - rewrite Htw, Hn. lia.
  - rewrite Hraf. lia.
  - rewrite Hheap, column3_worldTransformAfter. exact H0.
Qed.

Lemma main_goodHost : fst (Animated.main goodHost World0) = Ok (Some closureFresh).
Proof.
  js_eval_sample.
  cbv [store Nat.eqb String.eqb Ascii.eqb Bool.eqb].
  rewrite (proj1 toWorld0_built).
  js_eval. reflexivity.
Qed.

Lemma C10_witness :
  fst (Animated.main goodHost World0) = Ok (Some closureFresh) /\
  column3 (heap (snd (Animated.frames goodHost closureFresh [1000; 1016; 8000; 20000]
                        (snd (Animated.main goodHost World0))))
                (Animated.toWorld closureFresh)) = (0, 0, -6, 1).
Proof.
  split; [exact main_goodHost |].
  exact (proj1 (proj2 (C10_translation_column_is_fixed goodHost closureFresh
                         [1000; 1016; 8000; 20000] main_goodHost))).
Defined.

(** ** The static variant *)

(** What a completed run of the static [main] leaves behind. *)
Lemma static_main_facts host :
  hasContext host = true ->
  returned (Static.main host World0) = true ->
  drawCount (events (snd (Static.main host World0))) = 1%nat /\
  hd_error (events (snd (Static.main host World0))) = Some (DrawArrays TRIANGLE_STRIP 0 4) /\
  filter isRequestAnimationFrame (events (snd (Static.main host World0))) = [] /\
  rafPending (snd (Static.main host World0)) = 0%nat /\
  map snd (uniformsSent (events (snd (Static.main host World0)))) =
    [mat4v.translate mat4v.identity (0, 0, -6);
     mat4v.perspective (45 * PI / 180) (gl.canvasAspect host) 0.1 100] /\
  buffers (snd (Static.main host World0)) =
    [mkBufferObj [1; 1; -1; 1; 1; -1; -1; -1] (Some STATIC_DRAW)] /\
  filter isBufferData (events (snd (Static.main host World0))) =
    [BufferData ARRAY_BUFFER [1; 1; -1; 1; 1; -1; -1; -1] STATIC_DRAW].
Proof.
  intros Hctx.
  remember (Static.main host World0) as o eqn:Ho. revert Ho.
  unfold Static.main. rewrite Hctx. cbn [negb].
  js_eval.
  repeat (host_case; js_eval).
  all: intros ->; js_eval.
  all: try (intros H; discriminate H).
  all: intros _; cbv [store Nat.eqb map snd]; repeat split.
Qed.

(** The whole run of the static [main] when the pipeline is built. *)
Lemma static_main_success host :
  hasContext host = true ->
  compiles host VERTEX_SHADER Static.shader_vertex = true ->
  compiles host FRAGMENT_SHADER Static.shader_fragment = true ->
  links host Static.shader_vertex Static.shader_fragment = true ->
  fst (Static.main host World0) = Ok tt /\
  trace (snd (Static.main host World0)) =
    [CreateShader VERTEX_SHADER; ShaderSource 0%nat Static.shader_vertex;
     CompileShader 0%nat; GetShaderParameter 0%nat COMPILE_STATUS;
     CreateShader FRAGMENT_SHADER; ShaderSource 1%nat Static.shader_fragment;
     CompileShader 1%nat; GetShaderParameter 1%nat COMPILE_STATUS;
     CreateProgram; AttachShader 0%nat (Some 0%nat); AttachShader 0%nat (Some 1%nat);
     LinkProgram 0%nat; GetProgramParameter 0%nat LINK_STATUS;
     GetAttribLocation (Some 0%nat) "Vertex";
     GetUniformLocation (Some 0%nat) "Projection";
     GetUniformLocation (Some 0%nat) "ModelView";
     CreateBuffer; BindBuffer ARRAY_BUFFER 0%nat;
     BufferData ARRAY_BUFFER [1; 1; -1; 1; 1; -1; -1; -1] STATIC_DRAW;
     ClearColor 0 0 0 1; ClearDepth 1; Enable DEPTH_TEST; DepthFunc LEQUAL;
     Clear (Z.lor COLOR_BUFFER_BIT DEPTH_BUFFER_BIT);
     BindBuffer ARRAY_BUFFER 0%nat;
     VertexAttribPointer (attribLocation host 0%nat "Vertex") 2 FLOAT false 0 0;
     EnableVertexAttribArray (attribLocation host 0%nat "Vertex");
     UseProgram (Some 0%nat);
     UniformMatrix4fv (uniformLocation host 0%nat "Projection") false
       (mat4v.perspective (45 * PI / 180) (gl.canvasAspect host) 0.1 100);
     UniformMatrix4fv (uniformLocation host 0%nat "ModelView") false
       (mat4v.translate mat4v.identity (0, 0, -6));
     DrawArrays TRIANGLE_STRIP 0 4].
Proof.
  intros Hctx Hv Hf Hl.
  remember (Static.main host World0) as o eqn:Ho. revert Ho.
  unfold Static.main. rewrite Hctx. cbn [negb].
  js_eval. rewrite Hv. js_eval. rewrite Hf. js_eval. rewrite Hl. js_eval.
  cbv [store Nat.eqb].
  intros ->. split; reflexivity.
Qed.

(** C7. A run of the static [main] that has a context and returns issues
    exactly one draw call, as its last call, and registers no callback;
    the draw is a triangle strip of 4 vertices, and the view matrix
    uploaded for it is the identity translated by (0,0,-6); when the
    pipeline is built, it goes to the location of "ModelView". *)
Theorem C7_static_variant_draws_once host :
  hasContext host = true ->
  returned (Static.main host World0) = true ->
  drawCount (events (snd (Static.main host World0))) = 1%nat /\
  hd_error (events (snd (Static.main host World0))) = Some (DrawArrays TRIANGLE_STRIP 0 4) /\
  filter isRequestAnimationFrame (events (snd (Static.main host World0))) = [] /\
  rafPending (snd (Static.main host World0)) = 0%nat /\
  map snd (uniformsSent (events (snd (Static.main host World0)))) =
    [mat4v.translate mat4v.identity (0, 0, -6);
     mat4v.perspective (45 * PI / 180) (gl.canvasAspect host) 0.1 100] /\
  mat4v.translate mat4v.identity (0, 0, -6) =
    mkMat4 1 0 0 0
           0 1 0 0
           0 0 1 0
           0 0 (-6) 1 /\
  (compiles host VERTEX_SHADER Static.shader_vertex = true ->
   compiles host FRAGMENT_SHADER Static.shader_fragment = true ->
   links host Static.shader_vertex Static.shader_fragment = true ->
   uniformsSent (events (snd (Static.main host World0))) =
     [(uniformLocation host 0%nat "ModelView", mat4v.translate mat4v.identity (0, 0, -6));
      (uniformLocation host 0%nat "Projection",
       mat4v.perspective (45 * PI / 180) (gl.canvasAspect host) 0.1 100)]).
Proof.
  intros Hctx Hret.
  destruct (static_main_facts host Hctx Hret) as (Hd & Hl & Hr & Hp & Hu & _).
  refine (conj Hd (conj Hl (conj Hr (conj Hp (conj Hu (conj _ _)))))).
  - exact (proj2 toWorld0_built).
  - intros Hv Hf Hlk.
    destruct (static_main_success host Hctx Hv Hf Hlk) as (_ & Ht).
    unfold trace in Ht. apply (f_equal (@rev Event)) in Ht.
    rewrite rev_involutive in Ht. rewrite Ht. reflexivity.
Qed.

Lemma static_main_goodHost : returned (Static.main goodHost World0) = true.
Proof. js_eval_sample. reflexivity. Qed.

Lemma C7_witness :
  hasContext goodHost = true /\
  returned (Static.main goodHost World0) = true /\
  drawCount (events (snd (Static.main goodHost World0))) = 1%nat.
Proof.
  split; [reflexivity | split; [exact static_main_goodHost |]].
  exact (proj1 (C7_static_variant_draws_once goodHost eq_refl static_main_goodHost)).
Defined.

(** ** The buffers *)

Lemma setNth_length_app {A : Type} (l r : list A) (x y : A) :
  setNth (List.length l) x (l ++ y :: r) = l ++ x :: r.
Proof.
  induction l as [| a l IH]; [reflexivity |].
  cbn [List.length app setNth]. rewrite IH. reflexivity.
Qed.

Lemma nth_error_length_app {A : Type} (l r : list A) (y : A) :
  nth_error (l ++ y :: r) (List.length l) = Some y.
Proof.
  induction l as [| a l IH]; [reflexivity |].
  cbn [List.length app nth_error]. exact IH.
Qed.

(** Unfolds the buffer calls and the state accessors, and leaves the
    tables of the context as they are. *)
Ltac buffers_eval :=
  cbv beta iota zeta delta
    [bind ret emit getW modifyW fst snd
     with_heap with_shaders with_programs with_buffers with_binding with_rafPending
     with_event
     heap heapNext shaders programs buffers arrayBufferBinding rafPending events
     gl.createBuffer gl.bindBuffer gl.bufferData
     Static.initBuffers Animated.initBuffers Static.position
     Animated.position Animated.color filter isBufferData].

Lemma static_initBuffers_facts w :
  fst (Static.initBuffers w) = Ok (Static.mkBuffers (List.length (buffers w))) /\
  buffers (snd (Static.initBuffers w)) =
    buffers w ++ [mkBufferObj [1; 1; -1; 1; 1; -1; -1; -1] (Some STATIC_DRAW)] /\
  events (snd (Static.initBuffers w)) =
    BufferData ARRAY_BUFFER [1; 1; -1; 1; 1; -1; -1; -1] STATIC_DRAW
    :: BindBuffer ARRAY_BUFFER (List.length (buffers w))
    :: CreateBuffer :: events w.
Proof.
  destruct w as [h n sh pr bu ab rp ev]. buffers_eval.
  rewrite setNth_length_app. repeat split.
Qed.

Lemma animated_initBuffers_facts w :
  fst (Animated.initBuffers w) =
    Ok (Animated.mkBuffers (List.length (buffers w)) (S (List.length (buffers w)))) /\
  buffers (snd (Animated.initBuffers w)) =
    buffers w ++ [mkBufferObj [1; 1; -1; 1; 1; -1; -1; -1] (Some STATIC_DRAW);
                  mkBufferObj [1; 1; 1; 1; 1; 0; 0; 1; 0; 1; 0; 1; 0; 0; 1; 1]
                              (Some STATIC_DRAW)] /\
  events (snd (Animated.initBuffers w)) =
    BufferData ARRAY_BUFFER [1; 1; 1; 1; 1; 0; 0; 1; 0; 1; 0; 1; 0; 0; 1; 1] STATIC_DRAW
    :: BindBuffer ARRAY_BUFFER (S (List.length (buffers w)))
    :: CreateBuffer
    :: BufferData ARRAY_BUFFER [1; 1; -1; 1; 1; -1; -1; -1] STATIC_DRAW
    :: BindBuffer ARRAY_BUFFER (List.length (buffers w))
    :: CreateBuffer :: events w.
Proof.
  destruct w as [h n sh pr bu ab rp ev]. buffers_eval.
  rewrite setNth_length_app.
  rewrite setNth_length_app.
  rewrite <- app_assoc. cbn [app].
  rewrite length_app. cbn [List.length].
  replace (List.length bu + 1)%nat with (S (List.length bu)) by lia.
  repeat split.
Qed.

Lemma static_drawScene_buffers host pi b w :
  buffers (snd (Static.drawScene host pi b w)) = buffers w /\
  filter isBufferData (events (snd (Static.drawScene host pi b w))) =
    filter isBufferData (events w).
Proof. destruct w, pi as [? [?] [? ?]], b. js_eval. split; reflexivity. Qed.

(** C6. [initBuffers] leaves, in a buffer of its own, the four corners
    (1,1), (-1,1), (1,-1), (-1,-1) as 2 floats each and, in the animated
    variant, the four colors white, red, green, blue as 4 floats each; each
    is uploaded by one [bufferData] call with [STATIC_DRAW].  Nothing that
    runs afterwards ([drawScene], the callbacks) writes a buffer. *)
Theorem C6_buffers_hold_the_quad host :
  (forall w,
     fst (Static.initBuffers w) = Ok (Static.mkBuffers (List.length (buffers w))) /\
     nth_error (buffers (snd (Static.initBuffers w))) (List.length (buffers w)) =
       Some (mkBufferObj [1; 1; -1; 1; 1; -1; -1; -1] (Some STATIC_DRAW)) /\
     filter isBufferData (events (snd (Static.initBuffers w))) =
       BufferData ARRAY_BUFFER [1; 1; -1; 1; 1; -1; -1; -1] STATIC_DRAW
       :: filter isBufferData (events w)) /\
  (forall pi b w,
     buffers (snd (Static.drawScene host pi b w)) = buffers w /\
     filter isBufferData (events (snd (Static.drawScene host pi b w))) =
       filter isBufferData (events w)) /\
  (forall w,
     fst (Animated.initBuffers w) =
       Ok (Animated.mkBuffers (List.length (buffers w)) (S (List.length (buffers w)))) /\
     nth_error (buffers (snd (Animated.initBuffers w))) (List.length (buffers w)) =
       Some (mkBufferObj [1; 1; -1; 1; 1; -1; -1; -1] (Some STATIC_DRAW)) /\
     nth_error (buffers (snd (Animated.initBuffers w))) (S (List.length (buffers w))) =
       Some (mkBufferObj [1; 1; 1; 1; 1; 0; 0; 1; 0; 1; 0; 1; 0; 0; 1; 1]
                         (Some STATIC_DRAW)) /\
     filter isBufferData (events (snd (Animated.initBuffers w))) =
       BufferData ARRAY_BUFFER [1; 1; 1; 1; 1; 0; 0; 1; 0; 1; 0; 1; 0; 0; 1; 1] STATIC_DRAW
       :: BufferData ARRAY_BUFFER [1; 1; -1; 1; 1; -1; -1; -1] STATIC_DRAW
       :: filter isBufferData (events w)) /\
  (forall c ts w,
     buffers (snd (Animated.frames host c ts w)) = buffers w /\
     ((Animated.toWorld c < heapNext w)%nat ->
      filter isBufferData (events (snd (Animated.frames host c ts w))) =
        filter isBufferData (events w))) /\
  (forall c ts,
     fst (Animated.main host World0) = Ok (Some c) ->
     buffers (snd (Animated.frames host c ts (snd (Animated.main host World0)))) =
       [mkBufferObj [1; 1; -1; 1; 1; -1; -1; -1] (Some STATIC_DRAW);
        mkBufferObj [1; 1; 1; 1; 1; 0; 0; 1; 0; 1; 0; 1; 0; 0; 1; 1] (Some STATIC_DRAW)] /\
     filter isBufferData
       (events (snd (Animated.frames host c ts (snd (Animated.main host World0))))) =
       [BufferData ARRAY_BUFFER [1; 1; 1; 1; 1; 0; 0; 1; 0; 1; 0; 1; 0; 0; 1; 1] STATIC_DRAW;
        BufferData ARRAY_BUFFER [1; 1; -1; 1; 1; -1; -1; -1] STATIC_DRAW]) /\
  (hasContext host = true -> returned (Static.main host World0) = true ->
     buffers (snd (Static.main host World0)) =
       [mkBufferObj [1; 1; -1; 1; 1; -1; -1; -1] (Some STATIC_DRAW)] /\
     filter isBufferData (events (snd (Static.main host World0))) =
       [BufferData ARRAY_BUFFER [1; 1; -1; 1; 1; -1; -1; -1] STATIC_DRAW]) /\
  pairs [1; 1; -1; 1; 1; -1; -1; -1] = [(1, 1); (-1, 1); (1, -1); (-1, -1)] /\
  quads [1; 1; 1; 1; 1; 0; 0; 1; 0; 1; 0; 1; 0; 0; 1; 1] =
    [(1, 1, 1, 1); (1, 0, 0, 1); (0, 1, 0, 1); (0, 0, 1, 1)].
Proof.
  refine (conj _ (conj _ (conj _ (conj _ (conj _ (conj _ (conj eq_refl eq_refl))))))).
  - intros w. destruct (static_initBuffers_facts w) as (Hr & Hb & He).
    rewrite Hr, Hb, He. refine (conj eq_refl (conj _ eq_refl)).
    apply nth_error_length_app.
  - intros pi b w. apply static_drawScene_buffers.
  - intros w. destruct (animated_initBuffers_facts w) as (Hr & Hb & He).
    rewrite Hr, Hb, He. refine (conj eq_refl (conj _ (conj _ eq_refl))).
    + apply nth_error_length_app.
    + change (buffers w ++ [?p; ?q]) with (buffers w ++ [p] ++ [q]).
      rewrite app_assoc.
      replace (S (List.length (buffers w))) with (List.length (buffers w ++
        [mkBufferObj [1; 1; -1; 1; 1; -1; -1; -1] (Some STATIC_DRAW)])).
      * apply nth_error_length_app.
      * rewrite length_app. cbn [List.length]. lia.
  - intros c ts w. split.
    + apply frames_buffers.
    + apply frames_no_bufferData.
  - intros c ts Hmain.
    destruct (main_facts host c Hmain) as (Htw & _ & _ & _ & Hn & _ & _ & Hb & He).
    rewrite frames_buffers, frames_no_bufferData.
    + split; [exact Hb | exact He].
    + rewrite Htw, Hn. lia.
  - intros Hctx Hret.
    destruct (static_main_facts host Hctx Hret) as (_ & _ & _ & _ & _ & Hb & He).
    split; [exact Hb | exact He].
Qed.

Lemma C6_witness :
  fst (Animated.main goodHost World0) = Ok (Some closureFresh) /\
  buffers (snd (Animated.frames goodHost closureFresh [1000; 1016]
                  (snd (Animated.main goodHost World0)))) =
    [mkBufferObj [1; 1; -1; 1; 1; -1; -1; -1] (Some STATIC_DRAW);
     mkBufferObj [1; 1; 1; 1; 1; 0; 0; 1; 0; 1; 0; 1; 0; 0; 1; 1] (Some STATIC_DRAW)].
Proof.
  split; [exact main_goodHost |].
  destruct (C6_buffers_hold_the_quad goodHost) as (_ & _ & _ & _ & Hrun & _).
  exact (proj1 (Hrun closureFresh [1000; 1016] main_goodHost)).
Defined.

(** ** Failure of the shader pipeline *)

(** Membership in an explicit list of events. *)
Ltac in_events :=
  cbn [In];
  repeat first [ left; reflexivity | right ].

(** C2. When a stage fails to compile, [loadShader] reports the log of
    that stage and returns [null]; [initShaderProgram] does not stop
    there: it creates the program and attaches the [null] handle.  On a
    host that answers a [null] handle with an error flag it goes on to
    link the program, and returns [null] after a second report; on a host
    that answers with a [TypeError] the exception, not the source, ends the
    construction.  The specified behaviour, an abort before any attach
    or link step, is not what the code does. *)
Theorem C2_failed_stage_is_attached_and_linked host vs fs :
  compiles host VERTEX_SHADER vs = false \/ compiles host FRAGMENT_SHADER fs = false ->
  (compiles host VERTEX_SHADER vs = false ->
   In (Alert ("An error occurred compiling the shaders: "
              ++ shaderInfoLog host VERTEX_SHADER vs)%string)
      (trace (snd (Animated.initShaderProgram host vs fs World0)))) /\
  (compiles host FRAGMENT_SHADER fs = false ->
   In (Alert ("An error occurred compiling the shaders: "
              ++ shaderInfoLog host FRAGMENT_SHADER fs)%string)
      (trace (snd (Animated.initShaderProgram host vs fs World0)))) /\
  In CreateProgram (trace (snd (Animated.initShaderProgram host vs fs World0))) /\
  In (AttachShader 0%nat None) (trace (snd (Animated.initShaderProgram host vs fs World0))) /\
  (strictNull host = false ->
   In (LinkProgram 0%nat) (trace (snd (Animated.initShaderProgram host vs fs World0))) /\
   fst (Animated.initShaderProgram host vs fs World0) = Ok None) /\
  (strictNull host = true ->
   fst (Animated.initShaderProgram host vs fs World0) =
     Throw (TypeError "parameter is not a WebGL object")).
Proof.
  remember (Animated.initShaderProgram host vs fs World0) as o eqn:Ho. revert Ho.
  js_eval.
  repeat (host_case; js_eval).
  all: intros ->; js_eval.
  all: intros [Hf | Hf]; try discriminate Hf.
  all: refine (conj _ (conj _ (conj _ (conj _ (conj _ _))))).
  all: first
         [ solve [in_events]
         | intros H;
           first [ discriminate H
                 | clear H;
                   first [ reflexivity
                         | solve [in_events]
                         | solve [split; [in_events | reflexivity]] ] ] ].
Qed.

Lemma C2_witness :
  (compiles (sampleHost false false true true) VERTEX_SHADER Animated.SHADER_VERTEX = false \/
   compiles (sampleHost false false true true) FRAGMENT_SHADER Animated.SHADER_FRAGMENT = false) /\
  In (AttachShader 0%nat None)
     (trace (snd (Animated.initShaderProgram (sampleHost false false true true)
                    Animated.SHADER_VERTEX Animated.SHADER_FRAGMENT World0))).
Proof.
  split; [left; reflexivity |].
  exact (proj1 (proj2 (proj2 (proj2
    (C2_failed_stage_is_attached_and_linked (sampleHost false false true true)
       Animated.SHADER_VERTEX Animated.SHADER_FRAGMENT (or_introl eq_refl)))))).
Defined.

(** The whole run of [initShaderProgram] when the vertex stage does not
    compile, on a host that flags [null] handles: attach and link follow
    the report. *)
Lemma initShaderProgram_failing_vertex_run :
  Animated.initShaderProgram (sampleHost false false true true)
    Animated.SHADER_VERTEX Animated.SHADER_FRAGMENT World0 =
  (Ok None,
   mkWorld (fun _ => zeroMat4) 0%nat
     [mkShaderObj VERTEX_SHADER Animated.SHADER_VERTEX false;
      mkShaderObj FRAGMENT_SHADER Animated.SHADER_FRAGMENT true]
     [mkProgramObj [1%nat] false]
     [] None 0%nat
     (rev
        [CreateShader VERTEX_SHADER;
         ShaderSource 0%nat Animated.SHADER_VERTEX;
         CompileShader 0%nat;
         GetShaderParameter 0%nat COMPILE_STATUS;
         GetShaderInfoLog 0%nat;
         Alert "An error occurred compiling the shaders: ERROR: 0:1: syntax error";
         DeleteShader 0%nat;
         CreateShader FRAGMENT_SHADER;
         ShaderSource 1%nat Animated.SHADER_FRAGMENT;
         CompileShader 1%nat;
         GetShaderParameter 1%nat COMPILE_STATUS;
         CreateProgram;
         AttachShader 0%nat None;
         AttachShader 0%nat (Some 1%nat);
         LinkProgram 0%nat;
         GetProgramParameter 0%nat LINK_STATUS;
         GetProgramInfoLog 0%nat;
         Alert "Unable to initialize the shader program: link failed"])).
Proof. js_eval_sample. reflexivity. Qed.

(** The first callback of a pending run issues one more draw call. *)
Lemma first_frame_draws host c t w :
  (Animated.toWorld c < heapNext w)%nat ->
  (0 < rafPending w)%nat ->
  drawCount (events (snd (Animated.frames host c [t] w))) = S (drawCount (events w)).
Proof.
  intros Htw Hp. cbn [Animated.frames].
  rewrite (bind_run _ _ w
             (snd (Animated.step host c t (with_rafPending (pred (rafPending w)) w)))
             (nextClosure c t)).
  2:{ rewrite frame_pending by exact Hp. apply run_ok. apply step_returns. }
  unfold ret. cbn [snd].
  destruct (step_events host c t (with_rafPending (pred (rafPending w)) w) Htw)
    as (calls & -> & Hd & _).
  change (RequestAnimationFrame :: DrawArrays TRIANGLE_STRIP 0 4 :: ?u :: calls ++ ?l)
    with ([RequestAnimationFrame; DrawArrays TRIANGLE_STRIP 0 4; u] ++ calls ++ l).
  rewrite !drawCount_app, Hd, events_with_rafPending. reflexivity.
Qed.

(** The animated [main] on a host that flags [null] handles, when the
    pipeline cannot be built: it reports, and then runs to its end with a
    [null] program. *)
Lemma main_after_failed_pipeline host :
  hasContext host = true ->
  strictNull host = false ->
  compiles host VERTEX_SHADER Animated.SHADER_VERTEX
    && compiles host FRAGMENT_SHADER Animated.SHADER_FRAGMENT
    && links host Animated.SHADER_VERTEX Animated.SHADER_FRAGMENT = false ->
  exists c,
    fst (Animated.main host World0) = Ok (Some c) /\
    Animated.program (Animated.programInfo c) = None /\
    Animated.toWorld c = 0%nat /\
    heapNext (snd (Animated.main host World0)) = 1%nat /\
    rafPending (snd (Animated.main host World0)) = 1%nat /\
    drawCount (events (snd (Animated.main host World0))) = 0%nat /\
    (exists log,
       In (Alert ("Unable to initialize the shader program: " ++ log)%string)
          (trace (snd (Animated.main host World0)))) /\
    In (GetAttribLocation None "Vertex") (trace (snd (Animated.main host World0))) /\
    In (GetAttribLocation None "Color") (trace (snd (Animated.main host World0))) /\
    In (GetUniformLocation None "Projection") (trace (snd (Animated.main host World0))) /\
    In (GetUniformLocation None "ModelView") (trace (snd (Animated.main host World0))).
Proof.
  intros Hctx Hstrict.
  remember (Animated.main host World0) as o eqn:Ho. revert Ho.
  unfold Animated.main. rewrite Hctx. cbn [negb].
  js_eval.
  repeat (host_case; js_eval).
  all: try discriminate Hstrict.
  all: cbv [store Nat.eqb].
  all: rewrite ?(proj1 toWorld0_built).
  all: js_eval.
  all: intros ->; js_eval.
  all: try (intros H; discriminate H).
  all: intros _.
  all: eexists; refine (conj eq_refl _); js_eval.
  all: refine (conj eq_refl (conj eq_refl (conj eq_refl (conj eq_refl (conj eq_refl _))))).
  all: refine (conj _ (conj _ (conj _ (conj _ _)))); try solve [in_events].
  all: eexists; in_events.
Qed.

(** C1. When a stage does not compile or the program does not link, the
    failure is reported with [alert] and no program handle is obtained;
    but [main] does not halt.  On a host that flags [null] handles it
    looks up both attributes and both uniforms on the [null] program, sets
    up buffers and the world transform, registers the callback, and the
    first callback issues a draw call.  The specified behaviour, a halt
    of setup with no lookup and no draw, is not what the code does. *)
Theorem C1_setup_goes_on_after_failed_pipeline host t :
  hasContext host = true ->
  strictNull host = false ->
  compiles host VERTEX_SHADER Animated.SHADER_VERTEX
    && compiles host FRAGMENT_SHADER Animated.SHADER_FRAGMENT
    && links host Animated.SHADER_VERTEX Animated.SHADER_FRAGMENT = false ->
  exists c,
    fst (Animated.main host World0) = Ok (Some c) /\
    Animated.program (Animated.programInfo c) = None /\
    (exists log,
       In (Alert ("Unable to initialize the shader program: " ++ log)%string)
          (trace (snd (Animated.main host World0)))) /\
    In (GetAttribLocation None "Vertex") (trace (snd (Animated.main host World0))) /\
    In (GetUniformLocation None "ModelView") (trace (snd (Animated.main host World0))) /\
    rafPending (snd (Animated.main host World0)) = 1%nat /\
    drawCount (events (snd (Animated.main host World0))) = 0%nat /\
    drawCount (events (snd (Animated.frames host c [t] (snd (Animated.main host World0)))))
      = 1%nat.
Proof.
  intros Hctx Hstrict Hfail.
  destruct (main_after_failed_pipeline host Hctx Hstrict Hfail)
    as (c & Hr & Hprog & Htw & Hn & Hraf & Hd & Halert & Hv & _ & _ & Hmv).
  exists c.
  refine (conj Hr (conj Hprog (conj Halert (conj Hv (conj Hmv (conj Hraf (conj Hd _))))))).
  rewrite first_frame_draws.
  - rewrite Hd. reflexivity.
  - rewrite Htw, Hn. lia.
  - rewrite Hraf. lia.
Qed.

Lemma C1_witness :
  hasContext (sampleHost false true true false) = true /\
  strictNull (sampleHost false true true false) = false /\
  exists c,
    fst (Animated.main (sampleHost false true true false) World0) = Ok (Some c) /\
    drawCount (events (snd (Animated.frames (sampleHost false true true false) c [1000]
                              (snd (Animated.main (sampleHost false true true false) World0)))))
      = 1%nat.
Proof.
  split; [reflexivity | split; [reflexivity |]].
  destruct (C1_setup_goes_on_after_failed_pipeline (sampleHost false true true false) 1000
              eq_refl eq_refl eq_refl)
    as (c & Hr & _ & _ & _ & _ & _ & _ & Hd).
  exists c. split; [exact Hr | exact Hd].
Defined.

(** On a host that raises [TypeError] for a [null] handle, a program that
    does not link still reaches the first attribute lookup: that call, made
    with the [null] program, is where [main] ends. *)
Lemma main_strict_host_failed_link host :
  hasContext host = true ->
  strictNull host = true ->
  compiles host VERTEX_SHADER Animated.SHADER_VERTEX = true ->
  compiles host FRAGMENT_SHADER Animated.SHADER_FRAGMENT = true ->
  links host Animated.SHADER_VERTEX Animated.SHADER_FRAGMENT = false ->
  fst (Animated.main host World0) = Throw (TypeError "parameter is not a WebGL object") /\
  hd_error (events (snd (Animated.main host World0))) =
    Some (GetAttribLocation None "Vertex").
Proof.
  intros Hctx Hstrict Hv Hf Hl. unfold Animated.main. rewrite Hctx. cbn [negb].
  js_eval. rewrite Hv. js_eval. rewrite Hf. js_eval. rewrite Hl. js_eval.
  rewrite Hstrict. split; reflexivity.
Qed.


(** * Further properties of the program *)

(** ** No context *)

(** Without a WebGL context, [main] of either variant reports it and
    returns: no other call is made, no callback is registered, and the
    rest of the state is as it was. *)
Theorem main_without_context host w :
  hasContext host = false ->
  Static.main host w = (Ok tt, with_event (Alert "Unable to initialize WebGL.") w) /\
  Animated.main host w = (Ok None, with_event (Alert "Unable to initialize WebGL.") w).
Proof.
  intros Hctx. unfold Static.main, Animated.main. rewrite Hctx. cbn [negb].
  destruct w. split; reflexivity.
Qed.

Lemma main_without_context_witness :
  hasContext noContextHost = false /\
  trace (snd (Animated.main noContextHost World0)) = [Alert "Unable to initialize WebGL."] /\
  trace (snd (Static.main noContextHost World0)) = [Alert "Unable to initialize WebGL."].
Proof.
  split; [reflexivity |].
  destruct (main_without_context noContextHost World0 eq_refl) as [Hs Ha].
  rewrite Hs, Ha. split; reflexivity.
Defined.

(** ** The shader pipeline, from any state *)

Lemma nth_error_S_length_app {A : Type} (l r : list A) (x y : A) :
  nth_error (l ++ x :: y :: r) (S (List.length l)) = Some y.
Proof.
  induction l as [| a l IH]; [reflexivity |].
  cbn [List.length app nth_error]. exact IH.
Qed.


Lemma setNth_S_length_app {A : Type} (l r : list A) (a x y : A) :
  setNth (S (List.length l)) x (l ++ a :: y :: r) = l ++ a :: x :: r.
Proof.
  induction l as [| b l IH]; [reflexivity |].
  change (b :: setNth (S (List.length l)) x (l ++ a :: y :: r) = b :: l ++ a :: x :: r).
  rewrite IH. reflexivity.
Qed.

Lemma app_snoc2 {A : Type} (l : list A) (a b : A) : (l ++ [a]) ++ [b] = l ++ [a; b].
Proof. rewrite <- app_assoc. reflexivity. Qed.

Lemma length_snoc {A : Type} (l : list A) (a : A) :
  List.length (l ++ [a]) = S (List.length l).
Proof. rewrite length_app. cbn [List.length]. lia. Qed.

(** Unfolds the shader and program calls and the state accessors, and
    leaves the tables of the context as they are. *)
Ltac pipeline_eval :=
  cbv beta iota zeta delta
    [bind ret throw emit getW modifyW alert fst snd negb andb
     with_heap with_shaders with_programs with_buffers with_binding with_rafPending
     with_event
     heap heapNext shaders programs buffers arrayBufferBinding rafPending events
     sh_type sh_source sh_compiled pr_attached pr_linked ShaderType_eqb
     gl.nullArgument gl.createShader gl.shaderSource gl.compileShader
     gl.getShaderParameter gl.getShaderInfoLog gl.deleteShader gl.createProgram
     gl.attachShader gl.compiledStage gl.linkStatus gl.linkProgram
     gl.getProgramParameter gl.getProgramInfoLog
     Static.loadShader Animated.loadShader Static.initShader Animated.initShaderProgram
     filter isAlert].

(** Runs the pipeline calls on a state whose tables are not known. *)
Ltac pipeline_run :=
  repeat (pipeline_eval; cbn [app];
          rewrite ?app_snoc2, ?length_snoc,
                  ?nth_error_length_app, ?nth_error_S_length_app,
                  ?setNth_length_app, ?setNth_S_length_app).

Lemma loadShader_ok host type source w :
  compiles host type source = true ->
  Animated.loadShader host type source w =
    (Ok (Some (List.length (shaders w))),
     mkWorld (heap w) (heapNext w)
       (shaders w ++ [mkShaderObj type source true])
       (programs w) (buffers w) (arrayBufferBinding w) (rafPending w)
       (GetShaderParameter (List.length (shaders w)) COMPILE_STATUS
        :: CompileShader (List.length (shaders w))
        :: ShaderSource (List.length (shaders w)) source
        :: CreateShader type :: events w)).
Proof.
  intros Hc. destruct w as [h n sh pr bu ab rp ev].
  pipeline_run. rewrite Hc. pipeline_run. reflexivity.
Qed.

Lemma loadShader_fails host type source w :
  compiles host type source = false ->
  Animated.loadShader host type source w =
    (Ok None,
     mkWorld (heap w) (heapNext w)
       (shaders w ++ [mkShaderObj type source false])
       (programs w) (buffers w) (arrayBufferBinding w) (rafPending w)
       (DeleteShader (List.length (shaders w))
        :: Alert ("An error occurred compiling the shaders: "
                  ++ shaderInfoLog host type source)%string
        :: GetShaderInfoLog (List.length (shaders w))
        :: GetShaderParameter (List.length (shaders w)) COMPILE_STATUS
        :: CompileShader (List.length (shaders w))
        :: ShaderSource (List.length (shaders w)) source
        :: CreateShader type :: events w)).
Proof.
  intros Hc. destruct w as [h n sh pr bu ab rp ev].
  pipeline_run. rewrite Hc. pipeline_run. reflexivity.
Qed.

Lemma initShaderProgram_ok host vs fs w :
  compiles host VERTEX_SHADER vs = true ->
  compiles host FRAGMENT_SHADER fs = true ->
  links host vs fs = true ->
  Animated.initShaderProgram host vs fs w =
    (Ok (Some (List.length (programs w))),
     mkWorld (heap w) (heapNext w)
       (shaders w ++ [mkShaderObj VERTEX_SHADER vs true;
                      mkShaderObj FRAGMENT_SHADER fs true])
       (programs w ++ [mkProgramObj [List.length (shaders w); S (List.length (shaders w))]
                                    true])
       (buffers w) (arrayBufferBinding w) (rafPending w)
       (GetProgramParameter (List.length (programs w)) LINK_STATUS
        :: LinkProgram (List.length (programs w))
        :: AttachShader (List.length (programs w)) (Some (S (List.length (shaders w))))
        :: AttachShader (List.length (programs w)) (Some (List.length (shaders w)))
        :: CreateProgram
        :: GetShaderParameter (S (List.length (shaders w))) COMPILE_STATUS
        :: CompileShader (S (List.length (shaders w)))
        :: ShaderSource (S (List.length (shaders w))) fs
        :: CreateShader FRAGMENT_SHADER
        :: GetShaderParameter (List.length (shaders w)) COMPILE_STATUS
        :: CompileShader (List.length (shaders w))
        :: ShaderSource (List.length (shaders w)) vs
        :: CreateShader VERTEX_SHADER :: events w)).
Proof.
  intros Hv Hf Hl. destruct w as [h n sh pr bu ab rp ev].
  unfold Animated.initShaderProgram.
  rewrite (bind_run _ _ _ _ _ (loadShader_ok host VERTEX_SHADER vs _ Hv)).
  rewrite (bind_run _ _ _ _ _ (loadShader_ok host FRAGMENT_SHADER fs _ Hf)).
  pipeline_run. rewrite Hl. pipeline_run. reflexivity.
Qed.

Lemma initShaderProgram_link_fails host vs fs w :
  compiles host VERTEX_SHADER vs = true ->
  compiles host FRAGMENT_SHADER fs = true ->
  links host vs fs = false ->
  Animated.initShaderProgram host vs fs w =
    (Ok None,
     mkWorld (heap w) (heapNext w)
       (shaders w ++ [mkShaderObj VERTEX_SHADER vs true;
                      mkShaderObj FRAGMENT_SHADER fs true])
       (programs w ++ [mkProgramObj [List.length (shaders w); S (List.length (shaders w))]
                                    false])
       (buffers w) (arrayBufferBinding w) (rafPending w)
       (Alert ("Unable to initialize the shader program: "
               ++ programInfoLog host (Some vs) (Some fs))%string
        :: GetProgramInfoLog (List.length (programs w))
        :: GetProgramParameter (List.length (programs w)) LINK_STATUS
        :: LinkProgram (List.length (programs w))
        :: AttachShader (List.length (programs w)) (Some (S (List.length (shaders w))))
        :: AttachShader (List.length (programs w)) (Some (List.length (shaders w)))
        :: CreateProgram
        :: GetShaderParameter (S (List.length (shaders w))) COMPILE_STATUS
        :: CompileShader (S (List.length (shaders w)))
        :: ShaderSource (S (List.length (shaders w))) fs
        :: CreateShader FRAGMENT_SHADER
        :: GetShaderParameter (List.length (shaders w)) COMPILE_STATUS
        :: CompileShader (List.length (shaders w))
        :: ShaderSource (List.length (shaders w)) vs
        :: CreateShader VERTEX_SHADER :: events w)).
Proof.
  intros Hv Hf Hl. destruct w as [h n sh pr bu ab rp ev].
  unfold Animated.initShaderProgram.
  rewrite (bind_run _ _ _ _ _ (loadShader_ok host VERTEX_SHADER vs _ Hv)).
  rewrite (bind_run _ _ _ _ _ (loadShader_ok host FRAGMENT_SHADER fs _ Hf)).
  pipeline_run. rewrite Hl. pipeline_run. reflexivity.
Qed.

(** ** Every callback *)

(** The calls of one callback, newest first: the fifteen calls of
    [drawScene] with the world transform as [animate] left it, then the
    request for the next frame. *)
Lemma step_calls host c t w :
  (Animated.toWorld c < heapNext w)%nat ->
  events (snd (Animated.step host c t w)) =
    RequestAnimationFrame
    :: DrawArrays TRIANGLE_STRIP 0 4
    :: UniformMatrix4fv
         (Animated.modelViewMatrix (Animated.uniformLocations (Animated.programInfo c)))
         false
         (mat4v.multiply
            (animated (heap w (Animated.toWorld c)) (Animated.progressOf c t)
                      (Animated.deltaOf c t))
            mat4v.identity)
    :: UniformMatrix4fv
         (Animated.projectionMatrix (Animated.uniformLocations (Animated.programInfo c)))
         false (mat4v.perspective (45 * PI / 180) (gl.canvasAspect host) 0.1 100)
    :: UseProgram (Animated.program (Animated.programInfo c))
    :: EnableVertexAttribArray
         (Animated.vertexColor (Animated.attribLocations (Animated.programInfo c)))
    :: VertexAttribPointer
         (Animated.vertexColor (Animated.attribLocations (Animated.programInfo c)))
         4 FLOAT false 0 0
    :: BindBuffer ARRAY_BUFFER (Animated.color (Animated.buffers c))
    :: EnableVertexAttribArray
         (Animated.vertexPosition (Animated.attribLocations (Animated.programInfo c)))
    :: VertexAttribPointer
         (Animated.vertexPosition (Animated.attribLocations (Animated.programInfo c)))
         2 FLOAT false 0 0
    :: BindBuffer ARRAY_BUFFER (Animated.position (Animated.buffers c))
    :: Clear (Z.lor COLOR_BUFFER_BIT DEPTH_BUFFER_BIT)
    :: DepthFunc LEQUAL
    :: Enable DEPTH_TEST
    :: ClearDepth 1
    :: ClearColor 0 0 0 1
    :: events w.
Proof.
  intros Htw.
  pose proof (animate_frame (Animated.toWorld c) (Animated.progressOf c t)
                            (Animated.deltaOf c t) w) as (Hn & _ & _ & Hev).
  cbv zeta in Hn, Hev.
  rewrite step_snd, events_with_rafPending, events_with_event.
  rewrite drawScene_events by (rewrite Hn; exact Htw).
  rewrite animate_heap, Hev. reflexivity.
Qed.

(** [animate] writes no array but [toWorld]. *)
Lemma animate_heap_other tw progress delta w r :
  r <> tw ->
  heap (snd (Animated.animate tw progress delta w)) r = heap w r.
Proof.
  intros Hr. unfold Animated.animate. destruct w.
  destruct (Rlt_dec progress Animated.singleRotation);
    [| destruct (Rlt_dec progress (2 * Animated.singleRotation))];
    js_eval; rewrite ?rotate_Z; js_eval; heap_lookup;
    rewrite ?rotate_Y; js_eval; heap_lookup;
    rewrite ?rotate_X; js_eval; heap_lookup; reflexivity.
Qed.

Lemma step_heap_other host c t w r :
  (r < heapNext w)%nat -> r <> Animated.toWorld c ->
  heap (snd (Animated.step host c t w)) r = heap w r.
Proof.
  intros Hr Hne.
  rewrite step_snd, heap_with_rafPending, heap_with_event.
  rewrite drawScene_heap.
  - apply animate_heap_other. exact Hne.
  - destruct (animate_frame (Animated.toWorld c) (Animated.progressOf c t)
                            (Animated.deltaOf c t) w) as [-> _].
    exact Hr.
Qed.

(** A run of callbacks started while one is pending: counts of calls,
    pending callbacks, allocation, and the arrays left alone. *)
Lemma frames_counts host ts : forall c w,
  (Animated.toWorld c < heapNext w)%nat ->
  (0 < rafPending w)%nat ->
  drawCount (events (snd (Animated.frames host c ts w))) =
    (drawCount (events w) + List.length ts)%nat /\
  List.length (filter isRequestAnimationFrame (events (snd (Animated.frames host c ts w)))) =
    (List.length (filter isRequestAnimationFrame (events w)) + List.length ts)%nat /\
  List.length (filter isAlert (events (snd (Animated.frames host c ts w)))) =
    List.length (filter isAlert (events w)) /\
  heapNext (snd (Animated.frames host c ts w)) = (heapNext w + 2 * List.length ts)%nat /\
  (forall r, (r < heapNext w)%nat -> r <> Animated.toWorld c ->
     heap (snd (Animated.frames host c ts w)) r = heap w r).
Proof.
  induction ts as [| t rest IH]; intros c w Htw Hp.
  - cbn. repeat split; try lia. 
  - cbn [Animated.frames List.length].
    pose (w0 := with_rafPending (pred (rafPending w)) w).
    assert (Hstep : Animated.frame host c t w =
                    (Ok (nextClosure c t), snd (Animated.step host c t w0))).
    { rewrite frame_pending by exact Hp. apply run_ok. apply step_returns. }
    rewrite (bind_run _ _ _ _ _ Hstep).
    assert (Htw0 : (Animated.toWorld c < heapNext w0)%nat) by exact Htw.
    destruct (IH (nextClosure c t) (snd (Animated.step host c t w0)))
      as (Hd & Hr & Ha & Hn & Hh).
    + cbn [nextClosure Animated.toWorld]. rewrite step_heapNext. lia.
    + rewrite step_rafPending. lia.
    + rewrite Hd, Hr, Ha, Hn.
      rewrite (step_calls host c t w0 Htw0), step_heapNext.
      unfold w0. rewrite events_with_rafPending, heapNext_with_rafPending.
      unfold drawCount. cbn [filter isDrawArrays isRequestAnimationFrame isAlert List.length].
      refine (conj _ (conj _ (conj _ (conj _ _)))); try lia.
      intros r Hr' Hne.
      rewrite Hh.
      * rewrite step_heap_other by assumption. reflexivity.
      * rewrite step_heapNext. unfold w0. rewrite heapNext_with_rafPending. lia.
      * exact Hne.
Qed.

(** ** The world transform stays a rigid motion *)

Ltac rigid_unfold :=
  cbv [rigid mat4v.multiply rotZ rotY rotX toWorld0 mat4v.identity
       e0 e1 e2 e3 e4 e5 e6 e7 e8 e9 e10 e11 e12 e13 e14 e15].

(** One entry of the Gram matrix of a product: [ri], [rj] are the
    coefficients of the two new columns in the old ones. *)
Ltac gram a0 a1 a2 a4 a5 a6 a8 a9 a10 ri0 ri1 ri2 rj0 rj1 rj2 :=
  match goal with
  | |- ?L = _ =>
      replace L with
        (ri0 * rj0 * (a0 * a0 + a1 * a1 + a2 * a2)
         + ri1 * rj1 * (a4 * a4 + a5 * a5 + a6 * a6)
         + ri2 * rj2 * (a8 * a8 + a9 * a9 + a10 * a10)
         + (ri0 * rj1 + ri1 * rj0) * (a0 * a4 + a1 * a5 + a2 * a6)
         + (ri0 * rj2 + ri2 * rj0) * (a0 * a8 + a1 * a9 + a2 * a10)
         + (ri1 * rj2 + ri2 * rj1) * (a4 * a8 + a5 * a9 + a6 * a10)) by ring
  end.

Lemma rigid_multiply (a b : Mat4) : rigid a -> rigid b -> rigid (mat4v.multiply a b).
Proof.
  destruct a as [a0 a1 a2 a3 a4 a5 a6 a7 a8 a9 a10 a11 a12 a13 a14 a15].
  destruct b as [b0 b1 b2 b3 b4 b5 b6 b7 b8 b9 b10 b11 b12 b13 b14 b15].
  rigid_unfold.
  intros (Ha3 & Ha7 & Ha11 & Ha15 & HA00 & HA11 & HA22 & HA01 & HA02 & HA12).
  intros (Hb3 & Hb7 & Hb11 & Hb15 & HB00 & HB11 & HB22 & HB01 & HB02 & HB12).
  subst a3 a7 a11 a15 b3 b7 b11 b15.
  refine (conj _ (conj _ (conj _ (conj _ (conj _ (conj _ (conj _ (conj _ (conj _ _))))))))).
  1-4: ring.
  - gram a0 a1 a2 a4 a5 a6 a8 a9 a10 b0 b1 b2 b0 b1 b2.
    rewrite HA00, HA11, HA22, HA01, HA02, HA12. lra.
  - gram a0 a1 a2 a4 a5 a6 a8 a9 a10 b4 b5 b6 b4 b5 b6.
    rewrite HA00, HA11, HA22, HA01, HA02, HA12. lra.
  - gram a0 a1 a2 a4 a5 a6 a8 a9 a10 b8 b9 b10 b8 b9 b10.
    rewrite HA00, HA11, HA22, HA01, HA02, HA12. lra.
  - gram a0 a1 a2 a4 a5 a6 a8 a9 a10 b0 b1 b2 b4 b5 b6.
    rewrite HA00, HA11, HA22, HA01, HA02, HA12. lra.
  - gram a0 a1 a2 a4 a5 a6 a8 a9 a10 b0 b1 b2 b8 b9 b10.
    rewrite HA00, HA11, HA22, HA01, HA02, HA12. lra.
  - gram a0 a1 a2 a4 a5 a6 a8 a9 a10 b4 b5 b6 b8 b9 b10.
    rewrite HA00, HA11, HA22, HA01, HA02, HA12. lra.
Qed.

Lemma rigid_rotations (rad : R) : rigid (rotZ rad) /\ rigid (rotY rad) /\ rigid (rotX rad).
Proof.
  pose proof (sin2_cos2 rad) as H. unfold Rsqr in H.
  rigid_unfold. repeat split; lra.
Qed.

Lemma rigid_toWorld0 : rigid toWorld0.
Proof. rigid_unfold. repeat split; lra. Qed.

Lemma rigid_animated (W : Mat4) (progress delta : R) :
  rigid W -> rigid (animated W progress delta).
Proof.
  intros HW. unfold animated.
  destruct (rigid_rotations delta) as (Hz & Hy & Hx).
  destruct (Rlt_dec progress Animated.singleRotation);
    [| destruct (Rlt_dec progress (2 * Animated.singleRotation))].
  - apply rigid_multiply; assumption.
  - repeat apply rigid_multiply; assumption.
  - exact HW.
Qed.

Lemma rigid_worldTransformAfter ts : forall W c,
  rigid W -> rigid (worldTransformAfter W c ts).
Proof.
  induction ts as [| t rest IH]; intros W c HW; [exact HW |].
  cbn [worldTransformAfter]. apply IH. apply rigid_animated. exact HW.
Qed.

(** ** Edge cases of the animation clock *)

Lemma rotY_0 : rotY 0 = mat4v.identity.
Proof. unfold rotY. rewrite cos_0, sin_0. mat4_eq. Qed.

Lemma rotX_0 : rotX 0 = mat4v.identity.
Proof. unfold rotX. rewrite cos_0, sin_0. mat4_eq. Qed.

(** A delta of 0 leaves the world transform as it is, in every phase. *)
Lemma animated_zero_delta (W : Mat4) (progress : R) : animated W progress 0 = W.
Proof.
  unfold animated.
  destruct (Rlt_dec progress Animated.singleRotation);
    [| destruct (Rlt_dec progress (2 * Animated.singleRotation))];
    rewrite ?rotZ_0, ?rotY_0, ?rotX_0, ?multiply_identity_r; reflexivity.
Qed.

(** A callback with the timestamp of the one before it has delta 0. *)
Lemma deltaOf_repeated_timestamp c t : Animated.deltaOf (nextClosure c t) t = 0.
Proof.
  unfold Animated.deltaOf, Animated.progressOf, nextClosure.
  cbn [Animated.start Animated.last].
  unfold Animated.progressOf.
  destruct (Animated.start c) as [s |]; cbn [Animated.startAfter].
  - destruct (Req_dec_T s 0) as [Hs | Hs].
    + destruct (Req_dec_T t 0) as [Ht | Ht]; lra.
    + destruct (Req_dec_T s 0) as [Hs' | _]; [contradiction | lra].
  - destruct (Req_dec_T t 0) as [Ht | Ht]; lra.
Qed.

(** While the elapsed time is at least 2*T1 the run changes nothing. *)
Lemma worldTransformAfter_third_phase ts : forall W c,
  Forall (fun p => 2 * Animated.singleRotation <= p) (progresses c ts) ->
  worldTransformAfter W c ts = W.
Proof.
  induction ts as [| t rest IH]; intros W c Hall; [reflexivity |].
  cbn [progresses] in Hall. inversion Hall as [| p l Hp Hrest]; subst.
  cbn [worldTransformAfter]. rewrite IH by exact Hrest.
  unfold animated. pose proof singleRotation_bounds.
  destruct (Rlt_dec (Animated.progressOf c t) Animated.singleRotation); [lra |].
  destruct (Rlt_dec (Animated.progressOf c t) (2 * Animated.singleRotation)); [lra |].
  reflexivity.
Qed.

(** ** The projection *)

(** Component-wise equality of two 4-tuples. *)
Ltac tuple4_eq := f_equal; [f_equal; [f_equal |] |].

(** The projection matrix of [drawScene] on a point of view space: the
    clip [w] is the distance in front of the camera, and the planes at
    distance 0.1 and 100 go to the two ends of the clip range. *)
Lemma perspective_clip (aspect x y z : R) :
  transform (mat4v.perspective (45 * PI / 180) aspect 0.1 100) (x, y, - z, 1) =
    (1 / tan (45 * PI / 180 / 2) / aspect * x, 1 / tan (45 * PI / 180 / 2) * y,
     (1001 * z - 200) / 999, z).
Proof.
  unfold transform, mat4v.perspective.
  cbv [e0 e1 e2 e3 e4 e5 e6 e7 e8 e9 e10 e11 e12 e13 e14 e15].
  tuple4_eq; try ring.
  replace (0.1 - 100) with (- (999 / 10)) by lra.
  replace (100 + 0.1) with (1001 / 10) by lra.
  replace 0.1 with (1 / 10) by lra.
  field.
Qed.

Lemma transform_multiply (a b : Mat4) (v : R * R * R * R) :
  transform (mat4v.multiply a b) v = transform a (transform b v).
Proof.
  destruct v as [[[x y] z] w].
  unfold transform, mat4v.multiply.
  cbn [e0 e1 e2 e3 e4 e5 e6 e7 e8 e9 e10 e11 e12 e13 e14 e15].
  tuple4_eq; ring.
Qed.

Lemma transform_origin (m : Mat4) : transform m (0, 0, 0, 1) = column3 m.
Proof.
  unfold transform, column3. tuple4_eq; ring.
Qed.

(** A rigid motion that moves the origin to (0, 0, -6) keeps every point
    (x, y, 0) with |x|, |y| <= 1 at a distance between 4 and 8 in front of
    the camera. *)
Lemma rigid_view_depth (m : Mat4) (x y : R) :
  rigid m -> column3 m = (0, 0, - (6), 1) ->
  -1 <= x <= 1 -> -1 <= y <= 1 ->
  exists a b d,
    transform m (x, y, 0, 1) = (a, b, - d, 1) /\ 4 <= d <= 8.
Proof.
  intros (H3 & H7 & H11 & H15 & N0 & N1 & _) Hc Hx Hy.
  unfold column3 in Hc. injection Hc as H12 H13 H14 _.
  exists (e0 m * x + e4 m * y + e12 m), (e1 m * x + e5 m * y + e13 m),
         (6 - e2 m * x - e6 m * y).
  split.
  - unfold transform. rewrite H3, H7, H15, H14. tuple4_eq; ring.
  - assert (B2 : -1 <= e2 m <= 1) by nra.
    assert (B6 : -1 <= e6 m <= 1) by nra.
    assert (-1 <= e2 m * x <= 1) by nra.
    assert (-1 <= e6 m * y <= 1) by nra.
    lra.
Qed.

Lemma glPosition_in_depth_range (aspect : R) (m : Mat4) (v : R * R) :
  rigid m -> column3 m = (0, 0, - (6), 1) ->
  -1 <= fst v <= 1 -> -1 <= snd v <= 1 ->
  inDepthRange (glPosition (mat4v.perspective (45 * PI / 180) aspect 0.1 100) m v).
Proof.
  intros Hr Hc Hx Hy.
  destruct (rigid_view_depth m (fst v) (snd v) Hr Hc Hx Hy) as (a & b & d & Ht & Hd).
  unfold glPosition. rewrite transform_multiply, Ht, perspective_clip.
  unfold inDepthRange. lra.
Qed.

Lemma glPosition_centre (aspect : R) (m : Mat4) :
  column3 m = (0, 0, - (6), 1) ->
  glPosition (mat4v.perspective (45 * PI / 180) aspect 0.1 100) m (0, 0) =
    (0, 0, 5806 / 999, 6).
Proof.
  intros Hc. unfold glPosition. cbn [fst snd].
  rewrite transform_multiply, transform_origin, Hc, perspective_clip.
  replace ((1001 * 6 - 200) / 999) with (5806 / 999) by lra.
  rewrite !Rmult_0_r. reflexivity.
Qed.

(** The uniform uploads of a run of at least one callback end with those
    of its last [drawScene]: the projection, then the world transform as
    the run leaves it. *)
Lemma frames_last_uniforms host ts : forall c t w,
  (Animated.toWorld c < heapNext w)%nat ->
  (0 < rafPending w)%nat ->
  exists rest,
    uniformsSent (events (snd (Animated.frames host c (t :: ts) w))) =
      (Animated.modelViewMatrix (Animated.uniformLocations (Animated.programInfo c)),
       heap (snd (Animated.frames host c (t :: ts) w)) (Animated.toWorld c))
      :: (Animated.projectionMatrix (Animated.uniformLocations (Animated.programInfo c)),
          mat4v.perspective (45 * PI / 180) (gl.canvasAspect host) 0.1 100)
      :: rest.
Proof.
  induction ts as [| t' rest IH]; intros c t w Htw Hp.
  - cbn [Animated.frames].
    pose (w0 := with_rafPending (pred (rafPending w)) w).
    assert (Hstep : Animated.frame host c t w =
                    (Ok (nextClosure c t), snd (Animated.step host c t w0))).
    { rewrite frame_pending by exact Hp. apply run_ok. apply step_returns. }
    rewrite (bind_run _ _ _ _ _ Hstep).
    assert (Htw0 : (Animated.toWorld c < heapNext w0)%nat) by exact Htw.
    change (snd (ret (nextClosure c t) (snd (Animated.step host c t w0))))
      with (snd (Animated.step host c t w0)).
    rewrite (step_calls host c t w0 Htw0), step_heap by exact Htw0.
    cbn [uniformsSent]. rewrite multiply_identity_r.
    eexists. reflexivity.
  - remember (t' :: rest) as ts eqn:Hts.
    cbn [Animated.frames].
    pose (w0 := with_rafPending (pred (rafPending w)) w).
    assert (Hstep : Animated.frame host c t w =
                    (Ok (nextClosure c t), snd (Animated.step host c t w0))).
    { rewrite frame_pending by exact Hp. apply run_ok. apply step_returns. }
    rewrite (bind_run _ _ _ _ _ Hstep). subst ts.
    destruct (IH (nextClosure c t) t' (snd (Animated.step host c t w0))) as (r & Hr).
    + cbn [nextClosure Animated.toWorld]. rewrite step_heapNext.
      unfold w0. rewrite heapNext_with_rafPending. lia.
    + rewrite step_rafPending. lia.
    + exists r. exact Hr.
Qed.

(** * Properties of the pipeline functions *)

(** [loadShader] on a source that compiles (both variants): it returns
    the handle of a shader it has just created; the shader table gains
    that one object, holding the stage and the source text as given; no
    alert is raised, nothing is deleted, and the rest of the state is as
    it was. *)
Theorem loadShader_returns_compiled_shader host type source w :
  compiles host type source = true ->
  Animated.loadShader host type source w =
    (Ok (Some (List.length (shaders w))),
     mkWorld (heap w) (heapNext w)
       (shaders w ++ [mkShaderObj type source true])
       (programs w) (buffers w) (arrayBufferBinding w) (rafPending w)
       (GetShaderParameter (List.length (shaders w)) COMPILE_STATUS
        :: CompileShader (List.length (shaders w))
        :: ShaderSource (List.length (shaders w)) source
        :: CreateShader type :: events w)) /\
  Static.loadShader host type source w = Animated.loadShader host type source w.
Proof.
  intros Hc. split; [apply loadShader_ok; exact Hc | reflexivity].
Qed.

Lemma loadShader_returns_compiled_shader_witness :
  compiles goodHost FRAGMENT_SHADER Animated.SHADER_FRAGMENT = true /\
  fst (Animated.loadShader goodHost FRAGMENT_SHADER Animated.SHADER_FRAGMENT World0) =
    Ok (Some 0%nat).
Proof.
  split; [reflexivity |].
  rewrite (proj1 (loadShader_returns_compiled_shader goodHost FRAGMENT_SHADER
                    Animated.SHADER_FRAGMENT World0 eq_refl)).
  reflexivity.
Defined.

(** [loadShader] on a source that does not compile (both variants): it
    returns [null], after one alert that carries the info log of the stage
    and one [deleteShader] of the shader it created. *)
Theorem loadShader_reports_and_deletes_failed_shader host type source w :
  compiles host type source = false ->
  Animated.loadShader host type source w =
    (Ok None,
     mkWorld (heap w) (heapNext w)
       (shaders w ++ [mkShaderObj type source false])
       (programs w) (buffers w) (arrayBufferBinding w) (rafPending w)
       (DeleteShader (List.length (shaders w))
        :: Alert ("An error occurred compiling the shaders: "
                  ++ shaderInfoLog host type source)%string
        :: GetShaderInfoLog (List.length (shaders w))
        :: GetShaderParameter (List.length (shaders w)) COMPILE_STATUS
        :: CompileShader (List.length (shaders w))
        :: ShaderSource (List.length (shaders w)) source
        :: CreateShader type :: events w)) /\
  Static.loadShader host type source w = Animated.loadShader host type source w.
Proof.
  intros Hc. split; [apply loadShader_fails; exact Hc | reflexivity].
Qed.

Lemma loadShader_reports_and_deletes_failed_shader_witness :
  compiles (sampleHost false false true true) VERTEX_SHADER "not a shader" = false /\
  fst (Animated.loadShader (sampleHost false false true true) VERTEX_SHADER
         "not a shader" World0) = Ok None /\
  hd_error (events (snd (Animated.loadShader (sampleHost false false true true)
                           VERTEX_SHADER "not a shader" World0))) =
    Some (DeleteShader 0%nat).
Proof.
  split; [reflexivity |].
  rewrite (proj1 (loadShader_reports_and_deletes_failed_shader
                    (sampleHost false false true true) VERTEX_SHADER
                    "not a shader" World0 eq_refl)).
  split; reflexivity.
Defined.

(** The pipeline builder on sources that compile and link (both
    variants): it returns the handle of a program it has just created,
    linked, with the vertex shader attached first and the fragment shader
    second; it raises no alert and deletes nothing. *)
Theorem initShaderProgram_builds_linked_program host vs fs w :
  compiles host VERTEX_SHADER vs = true ->
  compiles host FRAGMENT_SHADER fs = true ->
  links host vs fs = true ->
  Animated.initShaderProgram host vs fs w =
    (Ok (Some (List.length (programs w))),
     mkWorld (heap w) (heapNext w)
       (shaders w ++ [mkShaderObj VERTEX_SHADER vs true;
                      mkShaderObj FRAGMENT_SHADER fs true])
       (programs w ++ [mkProgramObj [List.length (shaders w); S (List.length (shaders w))]
                                    true])
       (buffers w) (arrayBufferBinding w) (rafPending w)
       (GetProgramParameter (List.length (programs w)) LINK_STATUS
        :: LinkProgram (List.length (programs w))
        :: AttachShader (List.length (programs w)) (Some (S (List.length (shaders w))))
        :: AttachShader (List.length (programs w)) (Some (List.length (shaders w)))
        :: CreateProgram
        :: GetShaderParameter (S (List.length (shaders w))) COMPILE_STATUS
        :: CompileShader (S (List.length (shaders w)))
        :: ShaderSource (S (List.length (shaders w))) fs
        :: CreateShader FRAGMENT_SHADER
        :: GetShaderParameter (List.length (shaders w)) COMPILE_STATUS
        :: CompileShader (List.length (shaders w))
        :: ShaderSource (List.length (shaders w)) vs
        :: CreateShader VERTEX_SHADER :: events w)) /\
  Static.initShader host vs fs w = Animated.initShaderProgram host vs fs w.
Proof.
  intros Hv Hf Hl. split; [apply initShaderProgram_ok; assumption | reflexivity].
Qed.

Lemma initShaderProgram_builds_linked_program_witness :
  compiles goodHost VERTEX_SHADER Animated.SHADER_VERTEX = true /\
  compiles goodHost FRAGMENT_SHADER Animated.SHADER_FRAGMENT = true /\
  links goodHost Animated.SHADER_VERTEX Animated.SHADER_FRAGMENT = true /\
  fst (Animated.initShaderProgram goodHost Animated.SHADER_VERTEX
         Animated.SHADER_FRAGMENT World0) = Ok (Some 0%nat).
Proof.
  refine (conj eq_refl (conj eq_refl (conj eq_refl _))).
  rewrite (proj1 (initShaderProgram_builds_linked_program goodHost
                    Animated.SHADER_VERTEX Animated.SHADER_FRAGMENT World0
                    eq_refl eq_refl eq_refl)).
  reflexivity.
Defined.

(** The pipeline builder on sources that compile but do not link (both
    variants): it returns [null] after exactly one alert, which carries the
    info log of the program; the program object stays in the context,
    unlinked. *)
Theorem initShaderProgram_reports_link_failure host vs fs w :
  compiles host VERTEX_SHADER vs = true ->
  compiles host FRAGMENT_SHADER fs = true ->
  links host vs fs = false ->
  Animated.initShaderProgram host vs fs w =
    (Ok None,
     mkWorld (heap w) (heapNext w)
       (shaders w ++ [mkShaderObj VERTEX_SHADER vs true;
                      mkShaderObj FRAGMENT_SHADER fs true])
       (programs w ++ [mkProgramObj [List.length (shaders w); S (List.length (shaders w))]
                                    false])
       (buffers w) (arrayBufferBinding w) (rafPending w)
       (Alert ("Unable to initialize the shader program: "
               ++ programInfoLog host (Some vs) (Some fs))%string
        :: GetProgramInfoLog (List.length (programs w))
        :: GetProgramParameter (List.length (programs w)) LINK_STATUS
        :: LinkProgram (List.length (programs w))
        :: AttachShader (List.length (programs w)) (Some (S (List.length (shaders w))))
        :: AttachShader (List.length (programs w)) (Some (List.length (shaders w)))
        :: CreateProgram
        :: GetShaderParameter (S (List.length (shaders w))) COMPILE_STATUS
        :: CompileShader (S (List.length (shaders w)))
        :: ShaderSource (S (List.length (shaders w))) fs
        :: CreateShader FRAGMENT_SHADER
        :: GetShaderParameter (List.length (shaders w)) COMPILE_STATUS
        :: CompileShader (List.length (shaders w))
        :: ShaderSource (List.length (shaders w)) vs
        :: CreateShader VERTEX_SHADER :: events w)) /\
  Static.initShader host vs fs w = Animated.initShaderProgram host vs fs w.
Proof.
  intros Hv Hf Hl. split; [apply initShaderProgram_link_fails; assumption | reflexivity].
Qed.

Lemma initShaderProgram_reports_link_failure_witness :
  compiles (sampleHost false true true false) VERTEX_SHADER Animated.SHADER_VERTEX = true /\
  compiles (sampleHost false true true false) FRAGMENT_SHADER Animated.SHADER_FRAGMENT = true /\
  links (sampleHost false true true false) Animated.SHADER_VERTEX Animated.SHADER_FRAGMENT
    = false /\
  fst (Animated.initShaderProgram (sampleHost false true true false)
         Animated.SHADER_VERTEX Animated.SHADER_FRAGMENT World0) = Ok None.
Proof.
  refine (conj eq_refl (conj eq_refl (conj eq_refl _))).
  rewrite (proj1 (initShaderProgram_reports_link_failure (sampleHost false true true false)
                    Animated.SHADER_VERTEX Animated.SHADER_FRAGMENT World0
                    eq_refl eq_refl eq_refl)).
  reflexivity.
Defined.

(** * Properties of the callback loop *)

(** A run of [n] callbacks, started while one is pending, returns
    normally, issues exactly [n] draw calls and [n] requests for a next
    frame, raises no alert, and leaves exactly one more callback pending
    than it consumed: the loop neither stops nor multiplies. *)
Theorem callbacks_draw_and_reschedule_once_each host c ts w :
  (Animated.toWorld c < heapNext w)%nat ->
  (0 < rafPending w)%nat ->
  fst (Animated.frames host c ts w) = Ok (closureAfter c ts) /\
  drawCount (events (snd (Animated.frames host c ts w))) =
    (drawCount (events w) + List.length ts)%nat /\
  List.length (filter isRequestAnimationFrame (events (snd (Animated.frames host c ts w)))) =
    (List.length (filter isRequestAnimationFrame (events w)) + List.length ts)%nat /\
  List.length (filter isAlert (events (snd (Animated.frames host c ts w)))) =
    List.length (filter isAlert (events w)) /\
  rafPending (snd (Animated.frames host c ts w)) = rafPending w.
Proof.
  intros Htw Hp.
  destruct (frames_facts host ts c w Htw Hp) as (Hr & _ & _ & Hraf & _).
  destruct (frames_counts host ts c w Htw Hp) as (Hd & Hq & Ha & _).
  exact (conj Hr (conj Hd (conj Hq (conj Ha Hraf)))).
Qed.

Lemma callbacks_draw_and_reschedule_once_each_witness :
  (Animated.toWorld closureFresh < heapNext sampleWorld)%nat /\
  (0 < rafPending sampleWorld)%nat /\
  drawCount (events (snd (Animated.frames goodHost closureFresh [1000; 1016; 1033]
                            sampleWorld))) = 3%nat /\
  rafPending (snd (Animated.frames goodHost closureFresh [1000; 1016; 1033] sampleWorld))
    = 1%nat.
Proof.
  assert (Htw : (Animated.toWorld closureFresh < heapNext sampleWorld)%nat) by (cbn; lia).
  assert (Hp : (0 < rafPending sampleWorld)%nat) by (cbn; lia).
  destruct (callbacks_draw_and_reschedule_once_each goodHost closureFresh
              [1000; 1016; 1033] sampleWorld Htw Hp) as (_ & Hd & _ & _ & Hraf).
  exact (conj Htw (conj Hp (conj Hd Hraf))).
Defined.

(** A run of [n] callbacks allocates exactly [2 n] typed arrays (the
    projection and model-view matrices of each [drawScene]) and writes no
    array that existed before the run other than the world transform. *)
Theorem callbacks_write_only_the_world_transform host c ts w :
  (Animated.toWorld c < heapNext w)%nat ->
  (0 < rafPending w)%nat ->
  heapNext (snd (Animated.frames host c ts w)) = (heapNext w + 2 * List.length ts)%nat /\
  (forall r, (r < heapNext w)%nat -> r <> Animated.toWorld c ->
     heap (snd (Animated.frames host c ts w)) r = heap w r).
Proof.
  intros Htw Hp.
  destruct (frames_counts host ts c w Htw Hp) as (_ & _ & _ & Hn & Hh).
  exact (conj Hn Hh).
Qed.

Lemma callbacks_write_only_the_world_transform_witness :
  (Animated.toWorld closureFresh < heapNext sampleWorld)%nat /\
  (0 < rafPending sampleWorld)%nat /\
  heapNext (snd (Animated.frames goodHost closureFresh [1000; 1016; 1033] sampleWorld))
    = 7%nat.
Proof.
  assert (Htw : (Animated.toWorld closureFresh < heapNext sampleWorld)%nat) by (cbn; lia).
  assert (Hp : (0 < rafPending sampleWorld)%nat) by (cbn; lia).
  exact (conj Htw (conj Hp
    (proj1 (callbacks_write_only_the_world_transform goodHost closureFresh
              [1000; 1016; 1033] sampleWorld Htw Hp)))).
Defined.

(** After [main] and any run of callbacks the world transform is a rigid
    motion: its bottom row is (0,0,0,1) and its first three columns are
    orthonormal, so the quad is never scaled or sheared. *)
Theorem world_transform_stays_rigid host c ts :
  fst (Animated.main host World0) = Ok (Some c) ->
  rigid (heap (snd (Animated.main host World0)) (Animated.toWorld c)) /\
  rigid (heap (snd (Animated.frames host c ts (snd (Animated.main host World0))))
              (Animated.toWorld c)).
Proof.
  intros Hmain.
  destruct (main_facts host c Hmain) as (Htw & _ & _ & Hh & Hn & Hraf & _).
  assert (H0 : rigid (heap (snd (Animated.main host World0)) (Animated.toWorld c))).
  { rewrite Htw, Hh. exact rigid_toWorld0. }
  split; [exact H0 |].
  destruct (frames_facts host ts c (snd (Animated.main host World0)))
    as (_ & Hheap & _).
  - rewrite Htw, Hn. lia.
  - rewrite Hraf. lia.
  - rewrite Hheap. apply rigid_worldTransformAfter. exact H0.
Qed.

Lemma world_transform_stays_rigid_witness :
  fst (Animated.main goodHost World0) = Ok (Some closureFresh) /\
  rigid (heap (snd (Animated.frames goodHost closureFresh [1000; 1016; 8000; 20000]
                      (snd (Animated.main goodHost World0))))
              (Animated.toWorld closureFresh)).
Proof.
  split; [exact main_goodHost |].
  exact (proj2 (world_transform_stays_rigid goodHost closureFresh
                  [1000; 1016; 8000; 20000] main_goodHost)).
Defined.

(** A first timestamp of 0 leaves [start] falsy, so the second callback
    captures [start] again: the run returns with [start] = 0 after the
    first callback and [start] = second timestamp after the second, both
    with [last] = 0; both callbacks see elapsed time 0 and delta 0, the
    world transform is untouched, and a third callback measures its
    elapsed time from the second timestamp. *)
Theorem zero_first_timestamp_restarts_the_clock host pi b tw t2 w :
  (tw < heapNext w)%nat ->
  (0 < rafPending w)%nat ->
  fst (Animated.frames host (Animated.mkClosure pi b tw None 0 0) [0] w) =
    Ok (Animated.mkClosure pi b tw (Some 0) 0 0) /\
  fst (Animated.frames host (Animated.mkClosure pi b tw None 0 0) [0; t2] w) =
    Ok (Animated.mkClosure pi b tw (Some t2) 0 0) /\
  (forall t3, t2 <> 0 ->
     fst (Animated.frames host (Animated.mkClosure pi b tw None 0 0) [0; t2; t3] w) =
       Ok (Animated.mkClosure pi b tw (Some t2) ((t3 - t2) * 0.001) 0)) /\
  progresses (Animated.mkClosure pi b tw None 0 0) [0; t2] = [0; 0] /\
  deltas (Animated.mkClosure pi b tw None 0 0) [0; t2] = [0; 0] /\
  Animated.start (closureAfter (Animated.mkClosure pi b tw None 0 0) [0; t2]) = Some t2 /\
  heap (snd (Animated.frames host (Animated.mkClosure pi b tw None 0 0) [0; t2] w)) tw =
    heap w tw /\
  (forall t3, t2 <> 0 ->
     Animated.progressOf (closureAfter (Animated.mkClosure pi b tw None 0 0) [0; t2]) t3 =
       t3 - t2).
Proof.
  intros Htw Hp.
  assert (Hpr : progresses (Animated.mkClosure pi b tw None 0 0) [0; t2] = [0; 0]).
  { closure_eval. rewrite startAfter_null, startAfter_zero.
    repeat f_equal; lra. }
  assert (Hde : deltas (Animated.mkClosure pi b tw None 0 0) [0; t2] = [0; 0]).
  { closure_eval. rewrite startAfter_null, startAfter_zero.
    repeat f_equal; lra. }
  assert (Hst : Animated.start (closureAfter (Animated.mkClosure pi b tw None 0 0) [0; t2])
                = Some t2).
  { closure_eval. rewrite startAfter_null, startAfter_zero. reflexivity. }
  refine (conj _ (conj _ (conj _ (conj Hpr (conj Hde (conj Hst (conj _ _))))))).
  - rewrite (proj1 (frames_facts host [0] (Animated.mkClosure pi b tw None 0 0) w Htw Hp)).
    cbn [closureAfter]. unfold nextClosure, Animated.progressOf.
    cbn [Animated.programInfo Animated.buffers Animated.toWorld Animated.start
         Animated.rotationCount].
    rewrite startAfter_null.
    replace ((0 - 0) * 0.001) with 0 by lra. reflexivity.
  - rewrite (proj1 (frames_facts host [0; t2] (Animated.mkClosure pi b tw None 0 0) w
                      Htw Hp)).
    cbn [closureAfter]. unfold nextClosure, Animated.progressOf.
    cbn [Animated.programInfo Animated.buffers Animated.toWorld Animated.start
         Animated.rotationCount].
    rewrite startAfter_null, startAfter_zero.
    replace ((t2 - t2) * 0.001) with 0 by lra. reflexivity.
  - intros t3 Ht2.
    rewrite (proj1 (frames_facts host [0; t2; t3] (Animated.mkClosure pi b tw None 0 0) w
                      Htw Hp)).
    cbn [closureAfter]. unfold nextClosure, Animated.progressOf.
    cbn [Animated.programInfo Animated.buffers Animated.toWorld Animated.start
         Animated.rotationCount].
    rewrite startAfter_null, startAfter_zero.
    rewrite startAfter_nonzero by exact Ht2. reflexivity.
  - destruct (frames_facts host [0; t2] (Animated.mkClosure pi b tw None 0 0) w Htw Hp)
      as (_ & Hh & _).
    cbn [Animated.toWorld] in Hh. rewrite Hh.
    cbn [worldTransformAfter].
    change (Animated.progressOf (Animated.mkClosure pi b tw None 0 0) 0
            :: Animated.progressOf (nextClosure (Animated.mkClosure pi b tw None 0 0) 0) t2
            :: nil = [0; 0]) in Hpr.
    change (Animated.deltaOf (Animated.mkClosure pi b tw None 0 0) 0
            :: Animated.deltaOf (nextClosure (Animated.mkClosure pi b tw None 0 0) 0) t2
            :: nil = [0; 0]) in Hde.
    injection Hpr as Hp1 Hp2. injection Hde as Hd1 Hd2.
    rewrite Hd1, Hd2. rewrite !animated_zero_delta. reflexivity.
  - intros t3 Ht2. unfold Animated.progressOf. rewrite Hst.
    rewrite startAfter_nonzero by exact Ht2. reflexivity.
Qed.

Lemma zero_first_timestamp_restarts_the_clock_witness :
  (0 < heapNext sampleWorld)%nat /\
  (0 < rafPending sampleWorld)%nat /\
  fst (Animated.frames goodHost closureFresh [0; 16] sampleWorld) =
    Ok (Animated.mkClosure sampleProgramInfo (Animated.mkBuffers 0%nat 1%nat) 0%nat
          (Some 16) 0 0) /\
  heap (snd (Animated.frames goodHost closureFresh [0; 16] sampleWorld)) 0%nat = toWorld0.
Proof.
  assert (Htw : (0 < heapNext sampleWorld)%nat) by (cbn; lia).
  assert (Hp : (0 < rafPending sampleWorld)%nat) by (cbn; lia).
  refine (conj Htw (conj Hp (conj _ _))).
  - exact (proj1 (proj2
      (zero_first_timestamp_restarts_the_clock goodHost sampleProgramInfo
         (Animated.mkBuffers 0%nat 1%nat) 0%nat 16 sampleWorld Htw Hp))).
  - exact (proj1 (proj2 (proj2 (proj2 (proj2 (proj2 (proj2
      (zero_first_timestamp_restarts_the_clock goodHost sampleProgramInfo
         (Animated.mkBuffers 0%nat 1%nat) 0%nat 16 sampleWorld Htw Hp)))))))).
Defined.

(** Two callbacks with the same timestamp: the second has delta 0 and
    leaves the world transform as it is, whatever the phase. *)
Theorem repeated_timestamp_changes_nothing host c t w :
  (Animated.toWorld c < heapNext w)%nat ->
  Animated.deltaOf (nextClosure c t) t = 0 /\
  heap (snd (Animated.step host (nextClosure c t) t w)) (Animated.toWorld c) =
    heap w (Animated.toWorld c).
Proof.
  intros Htw. split; [apply deltaOf_repeated_timestamp |].
  pose proof (step_heap host (nextClosure c t) t w Htw) as Hs.
  cbn [nextClosure Animated.toWorld] in Hs. 
  change (Animated.mkClosure (Animated.programInfo c) (Animated.buffers c)
            (Animated.toWorld c)
            (Some (Animated.startAfter (Animated.start c) t))
            (Animated.progressOf c t * 0.001) (Animated.rotationCount c))
    with (nextClosure c t) in Hs.
  rewrite Hs, deltaOf_repeated_timestamp. apply animated_zero_delta.
Qed.

Lemma repeated_timestamp_changes_nothing_witness :
  (Animated.toWorld closureAt10s < heapNext sampleWorld)%nat /\
  heap (snd (Animated.step goodHost (nextClosure closureAt10s 11000) 11000 sampleWorld))
       0%nat = toWorld0.
Proof.
  assert (Htw : (Animated.toWorld closureAt10s < heapNext sampleWorld)%nat) by (cbn; lia).
  split; [exact Htw |].
  exact (proj2 (repeated_timestamp_changes_nothing goodHost closureAt10s 11000
                  sampleWorld Htw)).
Defined.

(** Once [start] is set, every callback whose timestamp is at least
    [start + 2*T1] leaves the world transform as it is: a run of such
    callbacks, of any length, changes nothing. *)
Theorem freeze_lasts_for_the_rest_of_the_run host c s ts w :
  (Animated.toWorld c < heapNext w)%nat ->
  (0 < rafPending w)%nat ->
  Animated.start c = Some s -> s <> 0 ->
  Forall (fun t => s + 2 * Animated.singleRotation <= t) ts ->
  heap (snd (Animated.frames host c ts w)) (Animated.toWorld c) =
    heap w (Animated.toWorld c).
Proof.
  intros Htw Hp Hs Hne Hall.
  destruct (frames_facts host ts c w Htw Hp) as (_ & Hh & _).
  rewrite Hh. apply worldTransformAfter_third_phase.
  rewrite (progresses_since_start ts c s Hs Hne).
  apply Forall_map. eapply Forall_impl; [| exact Hall].
  cbn beta. intros t Ht. lra.
Qed.

Lemma freeze_lasts_for_the_rest_of_the_run_witness :
  (Animated.toWorld closureAt20s < heapNext sampleWorld)%nat /\
  (0 < rafPending sampleWorld)%nat /\
  Forall (fun t => 1000 + 2 * Animated.singleRotation <= t) [21000; 21016; 30000] /\
  heap (snd (Animated.frames goodHost closureAt20s [21000; 21016; 30000] sampleWorld))
       0%nat = toWorld0.
Proof.
  assert (Htw : (Animated.toWorld closureAt20s < heapNext sampleWorld)%nat) by (cbn; lia).
  assert (Hp : (0 < rafPending sampleWorld)%nat) by (cbn; lia).
  assert (Hall : Forall (fun t => 1000 + 2 * Animated.singleRotation <= t)
                        [21000; 21016; 30000]).
  { pose proof singleRotation_bounds. repeat constructor; lra. }
  assert (Hne : 1000 <> 0) by lra.
  refine (conj Htw (conj Hp (conj Hall _))).
  exact (freeze_lasts_for_the_rest_of_the_run goodHost closureAt20s 1000
           [21000; 21016; 30000] sampleWorld Htw Hp eq_refl Hne Hall).
Defined.

(** * Whole runs *)

(** The animated [main] when the pipeline is built: the calls it makes, in
    order, with both shader texts passed as they are; it draws nothing
    itself, raises no alert, and hands the scheduler one callback whose
    closure holds the binding slots the context answered, the two buffers
    and the world transform translated by (0,0,-6). *)
Theorem animated_main_sets_up_and_hands_over host :
  hasContext host = true ->
  compiles host VERTEX_SHADER Animated.SHADER_VERTEX = true ->
  compiles host FRAGMENT_SHADER Animated.SHADER_FRAGMENT = true ->
  links host Animated.SHADER_VERTEX Animated.SHADER_FRAGMENT = true ->
  fst (Animated.main host World0) =
    Ok (Some (Animated.mkClosure
                (Animated.mkProgramInfo (Some 0%nat)
                   (Animated.mkAttribLocations (attribLocation host 0%nat "Vertex")
                                               (attribLocation host 0%nat "Color"))
                   (Animated.mkUniformLocations (uniformLocation host 0%nat "Projection")
                                                (uniformLocation host 0%nat "ModelView")))
                (Animated.mkBuffers 0%nat 1%nat) 0%nat None 0 0)) /\
  trace (snd (Animated.main host World0)) =
    [CreateShader VERTEX_SHADER; ShaderSource 0%nat Animated.SHADER_VERTEX;
     CompileShader 0%nat; GetShaderParameter 0%nat COMPILE_STATUS;
     CreateShader FRAGMENT_SHADER; ShaderSource 1%nat Animated.SHADER_FRAGMENT;
     CompileShader 1%nat; GetShaderParameter 1%nat COMPILE_STATUS;
     CreateProgram; AttachShader 0%nat (Some 0%nat); AttachShader 0%nat (Some 1%nat);
     LinkProgram 0%nat; GetProgramParameter 0%nat LINK_STATUS;
     GetAttribLocation (Some 0%nat) "Vertex"; GetAttribLocation (Some 0%nat) "Color";
     GetUniformLocation (Some 0%nat) "Projection";
     GetUniformLocation (Some 0%nat) "ModelView";
     CreateBuffer; BindBuffer ARRAY_BUFFER 0%nat;
     BufferData ARRAY_BUFFER [1; 1; -1; 1; 1; -1; -1; -1] STATIC_DRAW;
     CreateBuffer; BindBuffer ARRAY_BUFFER 1%nat;
     BufferData ARRAY_BUFFER [1; 1; 1; 1; 1; 0; 0; 1; 0; 1; 0; 1; 0; 0; 1; 1] STATIC_DRAW;
     RequestAnimationFrame] /\
  heap (snd (Animated.main host World0)) 0%nat = toWorld0 /\
  heapNext (snd (Animated.main host World0)) = 1%nat /\
  rafPending (snd (Animated.main host World0)) = 1%nat.
Proof.
  intros Hctx Hv Hf Hl.
  remember (Animated.main host World0) as o eqn:Ho. revert Ho.
  unfold Animated.main. rewrite Hctx. cbn [negb].
  js_eval. rewrite Hv. js_eval. rewrite Hf. js_eval. rewrite Hl. js_eval.
  cbv [store Nat.eqb]. rewrite (proj1 toWorld0_built). js_eval. cbv [store Nat.eqb].
  rewrite (proj2 toWorld0_built).
  intros ->. js_eval. repeat split.
Qed.

Lemma animated_main_sets_up_and_hands_over_witness :
  hasContext goodHost = true /\
  compiles goodHost VERTEX_SHADER Animated.SHADER_VERTEX = true /\
  compiles goodHost FRAGMENT_SHADER Animated.SHADER_FRAGMENT = true /\
  links goodHost Animated.SHADER_VERTEX Animated.SHADER_FRAGMENT = true /\
  rafPending (snd (Animated.main goodHost World0)) = 1%nat.
Proof.
  refine (conj eq_refl (conj eq_refl (conj eq_refl (conj eq_refl _)))).
  exact (proj2 (proj2 (proj2 (proj2
    (animated_main_sets_up_and_hands_over goodHost eq_refl eq_refl eq_refl eq_refl))))).
Defined.

(** The static [main] when the pipeline is built: the calls it makes, in
    order; it raises no alert, passes both shader texts as they are, uses
    the slot the context answered for "Vertex" in the attribute setup, and
    ends with its one draw call. *)
Theorem static_main_runs_once_through host :
  hasContext host = true ->
  compiles host VERTEX_SHADER Static.shader_vertex = true ->
  compiles host FRAGMENT_SHADER Static.shader_fragment = true ->
  links host Static.shader_vertex Static.shader_fragment = true ->
  fst (Static.main host World0) = Ok tt /\
  filter isAlert (events (snd (Static.main host World0))) = [] /\
  trace (snd (Static.main host World0)) =
    [CreateShader VERTEX_SHADER; ShaderSource 0%nat Static.shader_vertex;
     CompileShader 0%nat; GetShaderParameter 0%nat COMPILE_STATUS;
     CreateShader FRAGMENT_SHADER; ShaderSource 1%nat Static.shader_fragment;
     CompileShader 1%nat; GetShaderParameter 1%nat COMPILE_STATUS;
     CreateProgram; AttachShader 0%nat (Some 0%nat); AttachShader 0%nat (Some 1%nat);
     LinkProgram 0%nat; GetProgramParameter 0%nat LINK_STATUS;
     GetAttribLocation (Some 0%nat) "Vertex";
     GetUniformLocation (Some 0%nat) "Projection";
     GetUniformLocation (Some 0%nat) "ModelView";
     CreateBuffer; BindBuffer ARRAY_BUFFER 0%nat;
     BufferData ARRAY_BUFFER [1; 1; -1; 1; 1; -1; -1; -1] STATIC_DRAW;
     ClearColor 0 0 0 1; ClearDepth 1; Enable DEPTH_TEST; DepthFunc LEQUAL;
     Clear (Z.lor COLOR_BUFFER_BIT DEPTH_BUFFER_BIT);
     BindBuffer ARRAY_BUFFER 0%nat;
     VertexAttribPointer (attribLocation host 0%nat "Vertex") 2 FLOAT false 0 0;
     EnableVertexAttribArray (attribLocation host 0%nat "Vertex");
     UseProgram (Some 0%nat);
     UniformMatrix4fv (uniformLocation host 0%nat "Projection") false
       (mat4v.perspective (45 * PI / 180) (gl.canvasAspect host) 0.1 100);
     UniformMatrix4fv (uniformLocation host 0%nat "ModelView") false
       (mat4v.translate mat4v.identity (0, 0, -6));
     DrawArrays TRIANGLE_STRIP 0 4].
Proof.
  intros Hctx Hv Hf Hl.
  destruct (static_main_success host Hctx Hv Hf Hl) as (Hr & Ht).
  refine (conj Hr (conj _ Ht)).
  unfold trace in Ht. apply (f_equal (@rev Event)) in Ht.
  rewrite rev_involutive in Ht. rewrite Ht. reflexivity.
Qed.

Lemma static_main_runs_once_through_witness :
  hasContext goodHost = true /\
  compiles goodHost VERTEX_SHADER Static.shader_vertex = true /\
  compiles goodHost FRAGMENT_SHADER Static.shader_fragment = true /\
  links goodHost Static.shader_vertex Static.shader_fragment = true /\
  fst (Static.main goodHost World0) = Ok tt.
Proof.
  refine (conj eq_refl (conj eq_refl (conj eq_refl (conj eq_refl _)))).
  exact (proj1 (static_main_runs_once_through goodHost eq_refl eq_refl eq_refl eq_refl)).
Defined.

(** With a canvas of nonzero size, after [main] and a run of at least one
    callback: the projection and the model-view matrix of the last upload
    send the centre of the quad to clip coordinates (0, 0, 5806/999, 6),
    and each of the four vertices of the position buffer to a point in
    front of the camera, between the near and the far plane.  The quad
    never crosses either plane, however the timestamps turn it.  A canvas
    of width or height 0 is left out: there the aspect ratio of the source
    is 0, Infinity or NaN, values the real numbers of this model do not
    have. *)
Theorem quad_stays_between_near_and_far host c t ts :
  0 < clientWidth host ->
  0 < clientHeight host ->
  fst (Animated.main host World0) = Ok (Some c) ->
  exists P M rest,
    uniformsSent
      (events (snd (Animated.frames host c (t :: ts) (snd (Animated.main host World0))))) =
      (Animated.modelViewMatrix (Animated.uniformLocations (Animated.programInfo c)), M)
      :: (Animated.projectionMatrix (Animated.uniformLocations (Animated.programInfo c)), P)
      :: rest /\
    glPosition P M (0, 0) = (0, 0, 5806 / 999, 6) /\
    verticesOf (snd (Animated.frames host c (t :: ts) (snd (Animated.main host World0))))
               (Animated.position (Animated.buffers c)) =
      [(1, 1); (-1, 1); (1, -1); (-1, -1)] /\
    Forall (fun v => inDepthRange (glPosition P M v))
      (verticesOf (snd (Animated.frames host c (t :: ts) (snd (Animated.main host World0))))
                  (Animated.position (Animated.buffers c))).
Proof.
  intros _ _ Hmain.
  destruct (main_facts host c Hmain) as (Htw & _ & _ & Hh & Hn & Hraf & Hb & Hbufs & _).
  assert (Htw' : (Animated.toWorld c < heapNext (snd (Animated.main host World0)))%nat).
  { rewrite Htw, Hn. lia. }
  assert (Hp : (0 < rafPending (snd (Animated.main host World0)))%nat).
  { rewrite Hraf. lia. }
  destruct (frames_last_uniforms host ts c t _ Htw' Hp) as (rest & Hu).
  destruct (frames_facts host (t :: ts) c _ Htw' Hp) as (_ & Hheap & _).
  assert (Hrigid : rigid (heap (snd (Animated.frames host c (t :: ts)
                                       (snd (Animated.main host World0))))
                               (Animated.toWorld c))).
  { rewrite Hheap. apply rigid_worldTransformAfter. rewrite Htw, Hh. exact rigid_toWorld0. }
  assert (Hcol : column3 (heap (snd (Animated.frames host c (t :: ts)
                                      (snd (Animated.main host World0))))
                               (Animated.toWorld c)) = (0, 0, - (6), 1)).
  { rewrite Hheap, column3_worldTransformAfter, Htw, Hh. reflexivity. }
  assert (Hv : verticesOf (snd (Animated.frames host c (t :: ts)
                                  (snd (Animated.main host World0))))
                          (Animated.position (Animated.buffers c)) =
               [(1, 1); (-1, 1); (1, -1); (-1, -1)]).
  { unfold verticesOf. rewrite frames_buffers, Hbufs, Hb. reflexivity. }
  eexists _, _, rest. refine (conj Hu (conj _ (conj Hv _))).
  - apply glPosition_centre. exact Hcol.
  - rewrite Hv.
    repeat (apply Forall_cons;
            [apply glPosition_in_depth_range; [exact Hrigid | exact Hcol | |];
             cbn [fst snd]; lra |]).
    apply Forall_nil.
Qed.

Lemma quad_stays_between_near_and_far_witness :
  0 < clientWidth goodHost /\
  0 < clientHeight goodHost /\
  fst (Animated.main goodHost World0) = Ok (Some closureFresh) /\
  exists P M rest,
    uniformsSent
      (events (snd (Animated.frames goodHost closureFresh [1000; 1016; 8000]
                      (snd (Animated.main goodHost World0))))) =
      (Some 1%nat, M) :: (Some 0%nat, P) :: rest /\
    glPosition P M (0, 0) = (0, 0, 5806 / 999, 6) /\
    Forall (fun v => inDepthRange (glPosition P M v))
           [(1, 1); (-1, 1); (1, -1); (-1, -1)].
Proof.
  assert (Hw : 0 < clientWidth goodHost) by (cbn; lra).
  assert (Hh : 0 < clientHeight goodHost) by (cbn; lra).
  refine (conj Hw (conj Hh (conj main_goodHost _))).
  destruct (quad_stays_between_near_and_far goodHost closureFresh 1000 [1016; 8000]
              Hw Hh main_goodHost) as (P & M & rest & Hu & Hc & Hv & Hall).
  exists P, M, rest. rewrite Hv in Hall.
  refine (conj Hu (conj Hc Hall)).
Defined.
